(** * Recipe Explorer backend: authentication, recipes and favorites

    A shallow embedding of [recipe_backend/src/api] (FastAPI handlers over a
    SQLAlchemy session) together with the properties of its specification.

    - The database is a record of three tables held as lists of rows
      ([users], [recipes], [favorites]) plus the two id sequences.
    - A handler is a function from its arguments and the database to a
      [result] and the database after the request.  A raised exception
      leaves the database as it was: the session is closed without commit.
    - [passlib] and [jose] are interfaces (type classes); their laws are
      hypotheses of the theorems that need them.
    - The session is an [AsyncSession]: a relationship attribute that is not
      loaded ([current_user.favorites]) cannot be read outside an awaited
      call, the read raises [MissingGreenlet]; [db.delete] and [db.commit]
      are awaited and do load what they need.
    - Request bodies are the validated pydantic models the handlers receive.
    - [datetime.utcnow()] is the explicit argument [now], in seconds. *)

From Stdlib Require Import ZArith List String Ascii Bool Lia.
Import ListNotations.

Local Open Scope Z_scope.

(** ** Exceptions and results *)

Inductive exn : Type :=
| HTTPException (status_code : Z) (detail : string)
| MultipleResultsFound
| DataError (msg : string)
| MissingGreenlet.

Inductive result (A : Type) : Type :=
| Ok (a : A)
| Raise (e : exn).

Arguments Ok {A} a.
Arguments Raise {A} e.

Definition bind {A B : Type} (m : result A) (k : A -> result B) : result B :=
  match m with
  | Ok a => k a
  | Raise e => Raise e
  end.

Notation "x <- m ;; k" := (bind m (fun x => k))
  (at level 61, m at next level, right associativity).

(** ** db_models.py *)

Module User.
Record t : Type := mk {
  id : Z;
  email : string;
  hashed_password : string;
  is_active : bool
}.
End User.

Module Recipe.
Record t : Type := mk {
  id : Z;
  title : string;
  description : option string;
  ingredients : list string;
  instructions : list string;
  owner_id : Z
}.
End Recipe.

(** A row of [favorites_table]: [(user_id, recipe_id)]. *)
Definition favorite_row : Type := (Z * Z)%type.

Record Db : Type := mkDb {
  users : list User.t;
  recipes : list Recipe.t;
  favorites : list favorite_row;
  users_id_seq : Z;
  recipes_id_seq : Z
}.

(** ** models.py *)

Module UserCreate.
Record t : Type := mk { email : string; password : string }.
End UserCreate.

Module UserLogin.
Record t : Type := mk { email : string; password : string }.
End UserLogin.

Module UserResponse.
Record t : Type := mk { id : Z; email : string; is_active : bool }.
End UserResponse.

(** [RecipeBase], shared by [RecipeCreate] and [RecipeUpdate].  [title],
    [ingredients] and [instructions] are required, so a validated model
    always has them set; [description] defaults to [None], and
    [description_set] says whether the request supplied it (pydantic's
    fields-set record, which [dict(exclude_unset=True)] reads). *)
Module RecipeBase.
Record t : Type := mk {
  title : string;
  description : option string;
  description_set : bool;
  ingredients : list string;
  instructions : list string
}.
End RecipeBase.

Module RecipeResponse.
Record t : Type := mk {
  id : Z;
  title : string;
  description : option string;
  ingredients : list string;
  instructions : list string;
  owner_id : Z;
  is_favorite : bool
}.
End RecipeResponse.

Module RecipeListResponse.
Record t : Type := mk { recipes : list RecipeResponse.t; total : Z }.
End RecipeListResponse.

Module FavoriteRequest.
Record t : Type := mk { recipe_id : Z }.
End FavoriteRequest.

(** ** The session *)

(** [Result.scalar_one_or_none()]. *)
Definition scalar_one_or_none {A : Type} (rows : list A) : result (option A) :=
  match rows with
  | [] => Ok None
  | [a] => Ok (Some a)
  | _ :: _ :: _ => Raise MultipleResultsFound
  end.

(** [db.get(Recipe, recipe_id)]: the row with that primary key. *)
Definition get_Recipe (db : Db) (recipe_id : Z) : option Recipe.t :=
  find (fun r => Recipe.id r =? recipe_id) (recipes db).

(** [select(User).where(User.email == email)]. *)
Definition select_User_by_email (db : Db) (email : string) : list User.t :=
  filter (fun u => String.eqb (User.email u) email) (users db).

(** [select(User).where(User.id == user_id)]. *)
Definition select_User_by_id (db : Db) (user_id : Z) : list User.t :=
  filter (fun u => User.id u =? user_id) (users db).

(** [select(Recipe.id).join(Recipe.favorited_by).where(User.id == uid)]:
    recipes joined to favorites on the recipe id and to users on the user id. *)
Definition select_favorite_ids (db : Db) (uid : Z) : list Z :=
  flat_map (fun r =>
    flat_map (fun f =>
      if snd f =? Recipe.id r then
        flat_map (fun u =>
          if (User.id u =? fst f) && (User.id u =? uid)
          then [Recipe.id r] else [])
          (users db)
      else [])
      (favorites db))
    (recipes db).

(** db.py: [sessionmaker(bind=engine, class_=AsyncSession, ...)]. *)
Inductive session_class : Type :=
| Session
| AsyncSession.

Definition async_session : session_class := AsyncSession.

(** The rows that the relationship [User.favorites] (secondary =
    [favorites_table]) stands for: the SELECT that its loader emits for [u]. *)
Definition User_favorites (db : Db) (u : User.t) : list Recipe.t :=
  flat_map (fun f =>
    if fst f =? User.id u
    then filter (fun r => Recipe.id r =? snd f) (recipes db)
    else [])
    (favorites db).

(** Reading a relationship attribute that is not loaded yet.
    [relationship()] loads lazily by default and [get_current_user] selects
    the [User] without eager loading, so [current_user.favorites] emits its
    SELECT at the attribute access.  A synchronous session runs it; on an
    [AsyncSession] this is IO outside an awaited call, and the access raises
    [MissingGreenlet]. *)
Definition lazy_load {A : Type} (cls : session_class) (rows : A) : result A :=
  match cls with
  | Session => Ok rows
  | AsyncSession => Raise MissingGreenlet
  end.

(** [recipe in favorites] on a loaded collection: the session holds one
    object per primary key, so membership is membership of the id. *)
Definition in_favorites (favorites : list Recipe.t) (recipe : Recipe.t) : bool :=
  existsb (fun r => Recipe.id r =? Recipe.id recipe) favorites.

Definition same_row (f g : favorite_row) : bool :=
  (fst f =? fst g) && (snd f =? snd g).

(** Flushing [current_user.favorites.append(recipe)]: one INSERT. *)
Definition insert_favorite (db : Db) (f : favorite_row) : Db :=
  mkDb (users db) (recipes db) (favorites db ++ [f])
       (users_id_seq db) (recipes_id_seq db).

(** Flushing [current_user.favorites.remove(recipe)]: DELETE of that row. *)
Definition delete_favorite (db : Db) (f : favorite_row) : Db :=
  mkDb (users db) (recipes db)
       (filter (fun g => negb (same_row g f)) (favorites db))
       (users_id_seq db) (recipes_id_seq db).

(** Flushing [db.add(Recipe(...))]: the id comes from the sequence. *)
Definition insert_Recipe (db : Db) (title : string) (description : option string)
    (ingredients instructions : list string) (owner_id : Z) : Recipe.t * Db :=
  let r := Recipe.mk (recipes_id_seq db) title description ingredients
                     instructions owner_id in
  (r, mkDb (users db) (recipes db ++ [r]) (favorites db)
           (users_id_seq db) (recipes_id_seq db + 1)).

(** Flushing a modified [Recipe]: UPDATE ... WHERE id = [Recipe.id r]. *)
Definition update_Recipe (db : Db) (r : Recipe.t) : Db :=
  mkDb (users db)
       (map (fun r0 => if Recipe.id r0 =? Recipe.id r then r else r0) (recipes db))
       (favorites db) (users_id_seq db) (recipes_id_seq db).

(** Flushing [db.delete(recipe)]: [Recipe.favorited_by] is a relationship
    through [favorites_table], so the unit of work first deletes the
    association rows of the recipe, then the recipe row. *)
Definition delete_Recipe (db : Db) (r : Recipe.t) : Db :=
  mkDb (users db)
       (filter (fun r0 => negb (Recipe.id r0 =? Recipe.id r)) (recipes db))
       (filter (fun f => negb (snd f =? Recipe.id r)) (favorites db))
       (users_id_seq db) (recipes_id_seq db).

(** Flushing [db.add(User(email, hashed_password))]; [is_active] takes the
    column default. *)
Definition insert_User (db : Db) (email hashed_pw : string) : User.t * Db :=
  let u := User.mk (users_id_seq db) email hashed_pw true in
  (u, mkDb (users db ++ [u]) (recipes db) (favorites db)
           (users_id_seq db + 1) (recipes_id_seq db)).

(** ** SQL expressions of the search *)

(** ILIKE folds case; the model folds the ASCII letters. *)
Definition lower (c : ascii) : ascii :=
  let n := nat_of_ascii c in
  if ((65 <=? n) && (n <=? 90))%nat then ascii_of_nat (n + 32) else c.

Fixpoint lower_string (s : string) : string :=
  match s with
  | EmptyString => EmptyString
  | String c s' => String (lower c) (lower_string s')
  end.

(** A LIKE pattern: [%] is any run of characters, [_] any one character,
    a backslash makes the next character literal. *)
Inductive like_tok : Type :=
| LAny
| LOne
| LLit (c : ascii).

(** [esc] holds when the previous character was an unconsumed backslash;
    a pattern that ends there is rejected by the server. *)
Fixpoint like_parse (esc : bool) (p : string) : option (list like_tok) :=
  match p with
  | EmptyString => if esc then None else Some []
  | String c p' =>
      if esc then option_map (cons (LLit c)) (like_parse false p')
      else if Ascii.eqb c "\" then like_parse true p'
      else if Ascii.eqb c "%" then option_map (cons LAny) (like_parse false p')
      else if Ascii.eqb c "_" then option_map (cons LOne) (like_parse false p')
      else option_map (cons (LLit c)) (like_parse false p')
  end.

Fixpoint like_match (p : list like_tok) (s : string) : bool :=
  match p with
  | [] => match s with EmptyString => true | String _ _ => false end
  | LAny :: p' =>
      (fix any (s0 : string) : bool :=
         like_match p' s0
         || match s0 with
            | EmptyString => false
            | String _ s1 => any s1
            end) s
  | LOne :: p' =>
      match s with
      | EmptyString => false
      | String _ s' => like_match p' s'
      end
  | LLit c :: p' =>
      match s with
      | EmptyString => false
      | String c' s' => Ascii.eqb (lower c) (lower c') && like_match p' s'
      end
  end.

(** SQL's three-valued OR; [None] is NULL. *)
Definition sql_or (a b : option bool) : option bool :=
  match a, b with
  | Some true, _ | _, Some true => Some true
  | Some false, Some false => Some false
  | _, _ => None
  end.

(** [or_(title.ilike(pat), description.ilike(pat), ingredients.any(q))];
    [description] is nullable. *)
Definition search_clause (pat : list like_tok) (q : string) (r : Recipe.t)
  : option bool :=
  sql_or (Some (like_match pat (Recipe.title r)))
    (sql_or (option_map (like_match pat) (Recipe.description r))
            (Some (existsb (String.eqb q) (Recipe.ingredients r)))).

(** A row passes WHERE when the clause is true (not false, not NULL). *)
Definition sql_true (v : option bool) : bool :=
  match v with
  | Some true => true
  | _ => false
  end.

(** A parameter sent as a 64-bit integer. *)
Definition int64b (n : Z) : bool := (- 2 ^ 63 <=? n) && (n <? 2 ^ 63).

(** [.offset(skip).limit(limit)]: both are sent as 64-bit parameters, which
    the driver refuses out of range; the server rejects negative values. *)
Definition offset_limit {A : Type} (skip limit : Z) (rows : list A)
  : result (list A) :=
  if negb (int64b skip && int64b limit)
  then Raise (DataError "value out of int64 range")
  else if skip <? 0 then Raise (DataError "OFFSET must not be negative")
  else if limit <? 0 then Raise (DataError "LIMIT must not be negative")
  else Ok (firstn (Z.to_nat limit) (skipn (Z.to_nat skip) rows)).

(** The statement of [browse_recipes], lines 61-70. *)
Definition browse_query (db : Db) (q : option string) (skip limit : Z)
  : result (list Recipe.t) :=
  match q with
  | None | Some EmptyString => offset_limit skip limit (recipes db)
  | Some q0 =>
      match like_parse false ("%" ++ q0 ++ "%") with
      | None => Raise (DataError "LIKE pattern must not end with escape character")
      | Some pat =>
          offset_limit skip limit
            (filter (fun r => sql_true (search_clause pat q0 r)) (recipes db))
      end
  end.

(** ** recipe_router.py *)

Definition recipe_not_found : exn := HTTPException 404 "Recipe not found".
Definition forbidden : exn := HTTPException 403 "Forbidden".

Definition response_of (r : Recipe.t) (owner_id : Z) (is_favorite : bool)
  : RecipeResponse.t :=
  RecipeResponse.mk (Recipe.id r) (Recipe.title r) (Recipe.description r)
    (Recipe.ingredients r) (Recipe.instructions r) owner_id is_favorite.

Definition create_recipe (recipe : RecipeBase.t) (db : Db) (current_user : User.t)
  : result RecipeResponse.t * Db :=
  let '(db_recipe, db') :=
    insert_Recipe db (RecipeBase.title recipe) (RecipeBase.description recipe)
      (RecipeBase.ingredients recipe) (RecipeBase.instructions recipe)
      (User.id current_user) in
  (Ok (response_of db_recipe (User.id current_user) false), db').

Definition browse_recipes (db : Db) (q : option string) (skip limit : Z)
    (current_user : option User.t) : result RecipeListResponse.t :=
  recipes <- browse_query db q skip limit ;;
  let total := Z.of_nat (List.length recipes) in
  let fav_ids :=
    match current_user with
    | Some u => select_favorite_ids db (User.id u)
    | None => []
    end in
  let recipe_objs :=
    map (fun r => response_of r (Recipe.owner_id r)
                    (existsb (Z.eqb (Recipe.id r)) fav_ids)) recipes in
  Ok (RecipeListResponse.mk recipe_objs total).

(** [bool(fav.scalar())]: the first column of the first row, if any. *)
Definition bool_of_scalar (rows : list Z) : bool :=
  match rows with
  | [] => false
  | x :: _ => negb (x =? 0)
  end.

Definition get_recipe (recipe_id : Z) (db : Db) (current_user : option User.t)
  : result RecipeResponse.t :=
  match get_Recipe db recipe_id with
  | None => Raise recipe_not_found
  | Some recipe =>
      let is_favorite :=
        match current_user with
        | Some u =>
            bool_of_scalar
              (filter (Z.eqb recipe_id) (select_favorite_ids db (User.id u)))
        | None => false
        end in
      Ok (response_of recipe (Recipe.owner_id recipe) is_favorite)
  end.

(** One item of [recipe_update.dict(exclude_unset=True)]. *)
Inductive item : Type :=
| title_item (v : string)
| description_item (v : option string)
| ingredients_item (v : list string)
| instructions_item (v : list string).

Definition dict_exclude_unset (m : RecipeBase.t) : list item :=
  [title_item (RecipeBase.title m)]
  ++ (if RecipeBase.description_set m
      then [description_item (RecipeBase.description m)] else [])
  ++ [ingredients_item (RecipeBase.ingredients m);
      instructions_item (RecipeBase.instructions m)].

Definition setattr (r : Recipe.t) (kv : item) : Recipe.t :=
  match kv with
  | title_item v =>
      Recipe.mk (Recipe.id r) v (Recipe.description r) (Recipe.ingredients r)
                (Recipe.instructions r) (Recipe.owner_id r)
  | description_item v =>
      Recipe.mk (Recipe.id r) (Recipe.title r) v (Recipe.ingredients r)
                (Recipe.instructions r) (Recipe.owner_id r)
  | ingredients_item v =>
      Recipe.mk (Recipe.id r) (Recipe.title r) (Recipe.description r) v
                (Recipe.instructions r) (Recipe.owner_id r)
  | instructions_item v =>
      Recipe.mk (Recipe.id r) (Recipe.title r) (Recipe.description r)
                (Recipe.ingredients r) v (Recipe.owner_id r)
  end.

Definition update_recipe (recipe_id : Z) (recipe_update : RecipeBase.t)
    (db : Db) (current_user : User.t) : result RecipeResponse.t * Db :=
  match get_Recipe db recipe_id with
  | None => (Raise recipe_not_found, db)
  | Some db_recipe =>
      if negb (Recipe.owner_id db_recipe =? User.id current_user)
      then (Raise forbidden, db)
      else
        let db_recipe' :=
          fold_left setattr (dict_exclude_unset recipe_update) db_recipe in
        (Ok (response_of db_recipe' (Recipe.owner_id db_recipe') false),
         update_Recipe db db_recipe')
  end.

Definition delete_recipe (recipe_id : Z) (db : Db) (current_user : User.t)
  : result unit * Db :=
  match get_Recipe db recipe_id with
  | None => (Raise recipe_not_found, db)
  | Some db_recipe =>
      if negb (Recipe.owner_id db_recipe =? User.id current_user)
      then (Raise forbidden, db)
      else (Ok tt, delete_Recipe db db_recipe)
  end.

Definition add_favorite (fav_req : FavoriteRequest.t) (db : Db)
    (current_user : User.t) : result string * Db :=
  match get_Recipe db (FavoriteRequest.recipe_id fav_req) with
  | None => (Raise recipe_not_found, db)
  | Some recipe =>
      match lazy_load async_session (User_favorites db current_user) with
      | Raise e => (Raise e, db)
      | Ok favorites =>
          let db' :=
            if negb (in_favorites favorites recipe)
            then insert_favorite db (User.id current_user, Recipe.id recipe)
            else db in
          (Ok "Recipe added to favorites"%string, db')
      end
  end.

Definition remove_favorite (recipe_id : Z) (db : Db) (current_user : User.t)
  : result unit * Db :=
  match get_Recipe db recipe_id with
  | None => (Raise recipe_not_found, db)
  | Some recipe =>
      match lazy_load async_session (User_favorites db current_user) with
      | Raise e => (Raise e, db)
      | Ok favorites =>
          let db' :=
            if in_favorites favorites recipe
            then delete_favorite db (User.id current_user, Recipe.id recipe)
            else db in
          (Ok tt, db')
      end
  end.

(** [db.refresh(current_user)] reloads the columns; the relationship stays
    unloaded, and the comprehension reads it. *)
Definition list_favorites (db : Db) (current_user : User.t)
  : result RecipeListResponse.t :=
  favorites <- lazy_load async_session (User_favorites db current_user) ;;
  let recipe_objs :=
    map (fun r => response_of r (Recipe.owner_id r) true) favorites in
  Ok (RecipeListResponse.mk recipe_objs (Z.of_nat (List.length recipe_objs))).

(** ** Library interfaces *)

(** The value under ["sub"] in a payload: JSON carries a number or a
    string. *)
Inductive subject : Type :=
| sub_int (n : Z)
| sub_str (s : string).

(** The payload of a token: [{"sub": ..., "exp": ...}]. *)
Record claims : Type := mkClaims {
  sub : option subject;
  exp : option Z
}.

(** [passlib.context.CryptContext(schemes=["bcrypt"])].  [hash] draws a
    salt; the salt is an argument here. *)
Class CryptContext : Type := {
  salt : Type;
  pwd_context_hash : salt -> string -> string;
  pwd_context_verify : string -> string -> bool
}.

(** [jose.jwt].  [jwt_decode token key now] is [None] where [jwt.decode]
    raises [JWTError] (bad signature, malformed payload, [exp] in the past,
    a claim that fails validation). *)
Class Jose : Type := {
  token : Type;
  jwt_encode : claims -> string -> token;
  jwt_decode : token -> string -> Z -> option claims
}.

(** A hash verifies against the password it was made from. *)
Definition verify_hash_law (C : CryptContext) : Prop :=
  forall (s : salt) (p : string),
    pwd_context_verify p (pwd_context_hash s p) = true.

(** [jwt.decode] validates the registered claims of the payload: a ["sub"]
    that is not a string is refused ("Subject must be a string", a
    [JWTClaimsError], which is a [JWTError]). *)
Definition decode_refuses_integer_sub (J : Jose) : Prop :=
  forall (c : claims) (key : string) (now n : Z),
    sub c = Some (sub_int n) ->
    jwt_decode (jwt_encode c key) key now = None.

Module Token.
Record t {J : Jose} : Type := mk { access_token : token; token_type : string }.
End Token.

(** [select(User).where(User.id == user_id)] with the ["sub"] of a payload
    as [user_id]: the parameter is bound to an Integer column, and the
    driver refuses a string there. *)
Definition select_User_where_id (db : Db) (user_id : subject)
  : result (list User.t) :=
  match user_id with
  | sub_int n => Ok (select_User_by_id db n)
  | sub_str _ =>
      Raise (DataError "'str' object cannot be interpreted as an integer")
  end.

Section Auth.

Context {C : CryptContext} {J : Jose}.

(** [os.environ.get("JWT_SECRET", "SECRET_KEY_CHANGE_ME")]. *)
Variable JWT_SECRET : string.

(** ** auth.py *)

Definition ACCESS_TOKEN_EXPIRE_MINUTES : Z := 60 * 24 * 7.

Definition hash_password (s : salt) (password : string) : string :=
  pwd_context_hash s password.

Definition verify_password (password hashed : string) : bool :=
  pwd_context_verify password hashed.

(** [expires_delta] is in seconds; a zero [timedelta] is falsy. *)
Definition create_access_token (data : claims) (expires_delta : option Z)
    (now : Z) : token :=
  let expire :=
    match expires_delta with
    | Some d => if d =? 0 then now + ACCESS_TOKEN_EXPIRE_MINUTES * 60
                else now + d
    | None => now + ACCESS_TOKEN_EXPIRE_MINUTES * 60
    end in
  jwt_encode (mkClaims (sub data) (Some expire)) JWT_SECRET.

Definition credentials_exception : exn :=
  HTTPException 401 "Could not validate credentials".

(** [OAuth2PasswordBearer(tokenUrl="/auth/login")], with its default
    [auto_error=True].  The header is given as its scheme and parameter. *)
Definition oauth2_scheme (authorization : option (string * token))
  : result token :=
  match authorization with
  | None => Raise (HTTPException 401 "Not authenticated")
  | Some (scheme, param) =>
      if String.eqb (lower_string scheme) "bearer" then Ok param
      else Raise (HTTPException 401 "Not authenticated")
  end.

Definition get_current_user (db : Db) (tok : token) (now : Z)
  : result User.t :=
  match jwt_decode tok JWT_SECRET now with
  | None => Raise credentials_exception
  | Some payload =>
      match sub payload with
      | None => Raise credentials_exception
      | Some user_id =>
          rows <- select_User_where_id db user_id ;;
          user <- scalar_one_or_none rows ;;
          match user with
          | None => Raise credentials_exception
          | Some u => Ok u
          end
      end
  end.

(** [Depends(get_current_user)]: the token comes from [oauth2_scheme]. *)
Definition depends_get_current_user (db : Db)
    (authorization : option (string * token)) (now : Z) : result User.t :=
  tok <- oauth2_scheme authorization ;;
  get_current_user db tok now.

(** ** auth_router.py *)

Definition register (s : salt) (user : UserCreate.t) (db : Db)
  : result UserResponse.t * Db :=
  match scalar_one_or_none (select_User_by_email db (UserCreate.email user)) with
  | Raise e => (Raise e, db)
  | Ok (Some _) => (Raise (HTTPException 400 "Email already registered"), db)
  | Ok None =>
      let hashed_pw := hash_password s (UserCreate.password user) in
      let '(db_user, db') := insert_User db (UserCreate.email user) hashed_pw in
      (Ok (UserResponse.mk (User.id db_user) (User.email db_user)
                           (User.is_active db_user)), db')
  end.

Definition login (user : UserLogin.t) (db : Db) (now : Z) : result Token.t :=
  db_user <- scalar_one_or_none (select_User_by_email db (UserLogin.email user)) ;;
  match db_user with
  | None => Raise (HTTPException 401 "Incorrect email or password")
  | Some db_user =>
      if negb (verify_password (UserLogin.password user)
                               (User.hashed_password db_user))
      then Raise (HTTPException 401 "Incorrect email or password")
      else
        let tok := create_access_token
                     (mkClaims (Some (sub_int (User.id db_user))) None)
                                       None now in
        Ok (Token.mk J tok "bearer")
  end.

Definition get_me (current_user : User.t) : UserResponse.t :=
  UserResponse.mk (User.id current_user) (User.email current_user)
                  (User.is_active current_user).

(** ** The read routes with their dependencies

    [GET /recipes/] and [GET /recipes/{recipe_id}] declare
    [current_user: Optional[User] = Depends(get_current_user)]: the
    dependency runs first and the handler runs on the user it returns. *)

Definition route_browse_recipes (db : Db)
    (authorization : option (string * token)) (q : option string)
    (skip limit : Z) (now : Z) : result RecipeListResponse.t :=
  current_user <- depends_get_current_user db authorization now ;;
  browse_recipes db q skip limit (Some current_user).

Definition route_get_recipe (recipe_id : Z) (db : Db)
    (authorization : option (string * token)) (now : Z)
  : result RecipeResponse.t :=
  current_user <- depends_get_current_user db authorization now ;;
  get_recipe recipe_id db (Some current_user).

(** ** The protected routes with their dependencies

    These declare [current_user: User = Depends(get_current_user)]; a
    dependency that raises ends the request before the handler runs. *)

Definition route_get_me (db : Db) (authorization : option (string * token))
    (now : Z) : result UserResponse.t :=
  current_user <- depends_get_current_user db authorization now ;;
  Ok (get_me current_user).

Definition route_create_recipe (recipe : RecipeBase.t) (db : Db)
    (authorization : option (string * token)) (now : Z)
  : result RecipeResponse.t * Db :=
  match depends_get_current_user db authorization now with
  | Raise e => (Raise e, db)
  | Ok current_user => create_recipe recipe db current_user
  end.

Definition route_update_recipe (recipe_id : Z) (recipe_update : RecipeBase.t)
    (db : Db) (authorization : option (string * token)) (now : Z)
  : result RecipeResponse.t * Db :=
  match depends_get_current_user db authorization now with
  | Raise e => (Raise e, db)
  | Ok current_user => update_recipe recipe_id recipe_update db current_user
  end.

Definition route_delete_recipe (recipe_id : Z) (db : Db)
    (authorization : option (string * token)) (now : Z) : result unit * Db :=
  match depends_get_current_user db authorization now with
  | Raise e => (Raise e, db)
  | Ok current_user => delete_recipe recipe_id db current_user
  end.

Definition route_add_favorite (fav_req : FavoriteRequest.t) (db : Db)
    (authorization : option (string * token)) (now : Z) : result string * Db :=
  match depends_get_current_user db authorization now with
  | Raise e => (Raise e, db)
  | Ok current_user => add_favorite fav_req db current_user
  end.

Definition route_remove_favorite (recipe_id : Z) (db : Db)
    (authorization : option (string * token)) (now : Z) : result unit * Db :=
  match depends_get_current_user db authorization now with
  | Raise e => (Raise e, db)
  | Ok current_user => remove_favorite recipe_id db current_user
  end.

End Auth.

(** After its expiry a token no longer decodes. *)
Definition decode_expired_law (J : Jose) : Prop :=
  forall (c : claims) (key : string) (now e : Z),
    exp c = Some e -> e < now ->
    jwt_decode (jwt_encode c key) key now = None.

(** ** Requests that write *)

Inductive request {C : CryptContext} : Type :=
| Register (s : salt) (user : UserCreate.t)
| CreateRecipe (recipe : RecipeBase.t) (current_user : User.t)
| UpdateRecipe (recipe_id : Z) (recipe_update : RecipeBase.t) (current_user : User.t)
| DeleteRecipe (recipe_id : Z) (current_user : User.t)
| AddFavorite (fav_req : FavoriteRequest.t) (current_user : User.t)
| RemoveFavorite (recipe_id : Z) (current_user : User.t).

(** The database after a request. *)
Definition step {C : CryptContext} (req : request) (db : Db) : Db :=
  match req with
  | Register s user => snd (register s user db)
  | CreateRecipe recipe u => snd (create_recipe recipe db u)
  | UpdateRecipe recipe_id recipe_update u =>
      snd (update_recipe recipe_id recipe_update db u)
  | DeleteRecipe recipe_id u => snd (delete_recipe recipe_id db u)
  | AddFavorite fav_req u => snd (add_favorite fav_req db u)
  | RemoveFavorite recipe_id u => snd (remove_favorite recipe_id db u)
  end.

(** ** Constraints of the schema *)

Fixpoint distinct {A : Type} (eqb : A -> A -> bool) (l : list A) : bool :=
  match l with
  | [] => true
  | x :: l' => negb (existsb (eqb x) l') && distinct eqb l'
  end.

(** [email = Column(String, unique=True)]. *)
Definition unique_emails (db : Db) : bool :=
  distinct String.eqb (map User.email (users db)).

(** The sequence of [users.id] is ahead of every id in the table. *)
Definition user_ids_below_seq (db : Db) : bool :=
  forallb (fun u => User.id u <? users_id_seq db) (users db).

(** The primary key [id] of [recipes]. *)
Definition recipes_primary_key (db : Db) : bool :=
  distinct Z.eqb (map Recipe.id (recipes db)).

(** The sequence of [recipes.id] is ahead of every id in the table. *)
Definition recipe_ids_below_seq (db : Db) : bool :=
  forallb (fun r => Recipe.id r <? recipes_id_seq db) (recipes db).

(** The primary key [(user_id, recipe_id)] of [favorites]. *)
Definition favorites_primary_key (db : Db) : bool :=
  distinct same_row (favorites db).

(** [ForeignKey("recipes.id")] on [favorites.recipe_id]. *)
Definition favorites_reference_recipes (db : Db) : bool :=
  forallb (fun f => existsb (fun r => Recipe.id r =? snd f) (recipes db))
          (favorites db).

(** All the constraints together. *)
Definition schema_ok (db : Db) : bool :=
  unique_emails db && user_ids_below_seq db
  && recipes_primary_key db && recipe_ids_below_seq db
  && favorites_primary_key db && favorites_reference_recipes db.

(** The database before the first request. *)
Definition empty_db : Db := mkDb [] [] [] 1 1.

(** ** The search as the specification words it *)

(** [sub in s]. *)
Fixpoint contains (sub s : string) : bool :=
  String.prefix sub s
  || match s with
     | EmptyString => false
     | String _ s' => contains sub s'
     end.

Definition icontains (q s : string) : bool :=
  contains (lower_string q) (lower_string s).

(** Title or description contains [q] whatever the case, or some
    ingredient equals [q]. *)
Definition spec_match (q : string) (r : Recipe.t) : bool :=
  icontains q (Recipe.title r)
  || match Recipe.description r with
     | Some d => icontains q d
     | None => false
     end
  || existsb (String.eqb q) (Recipe.ingredients r).

(** The values an [Integer] column and a parameter bound to it can hold. *)
Definition int32 (n : Z) : Prop := - 2 ^ 31 <= n < 2 ^ 31.

(** Text of ASCII characters only; on such text the case folding of the
    server is [lower_string]. *)
Fixpoint ascii_only (s : string) : bool :=
  match s with
  | EmptyString => true
  | String c s' => (nat_of_ascii c <? 128)%nat && ascii_only s'
  end.

Definition ascii_recipe (r : Recipe.t) : bool :=
  ascii_only (Recipe.title r)
  && match Recipe.description r with
     | Some d => ascii_only d
     | None => true
     end.

(** A query without the characters that LIKE reads as syntax. *)
Fixpoint wildcard_free (q : string) : bool :=
  match q with
  | EmptyString => true
  | String c q' =>
      negb (Ascii.eqb c "\") && negb (Ascii.eqb c "%") && negb (Ascii.eqb c "_")
      && wildcard_free q'
  end.

(** The pattern that matches [q] character by character. *)
Fixpoint literals (q : string) : list like_tok :=
  match q with
  | EmptyString => []
  | String c q' => LLit c :: literals q'
  end.

(** ** A symbolic instance of the libraries

    Perfect cryptography: a hash is its password under a tag, a token is its
    claims paired with the signing key.  It instantiates the interfaces at
    concrete data. *)

Module Symbolic.

Definition crypt : CryptContext := {|
  salt := string;
  pwd_context_hash := fun _ p => ("$2b$" ++ p)%string;
  pwd_context_verify := fun p h => String.eqb h ("$2b$" ++ p)%string
|}.

Definition jose : Jose := {|
  token := (claims * string)%type;
  jwt_encode := fun c key => (c, key);
  jwt_decode := fun t key now =>
    if String.eqb (snd t) key
       && match exp (fst t) with
          | Some e => now <=? e
          | None => true
          end
    then Some (fst t) else None
|}.

(** The same with the validation of ["sub"] that [jwt.decode] performs. *)
Definition jose_strict : Jose := {|
  token := (claims * string)%type;
  jwt_encode := fun c key => (c, key);
  jwt_decode := fun t key now =>
    if String.eqb (snd t) key
       && match exp (fst t) with
          | Some e => now <=? e
          | None => true
          end
       && match sub (fst t) with
          | Some (sub_int _) => false
          | _ => true
          end
    then Some (fst t) else None
|}.

Definition alice : User.t := User.mk 1 "alice@example.com" "$2b$secret1" true.
Definition bob : User.t := User.mk 2 "bob@example.com" "$2b$secret2" true.

Definition omelet : Recipe.t :=
  Recipe.mk 1 "Omelet" None ["egg"; "salt"]%string ["Beat"; "Fry"]%string 1.

Definition toast : Recipe.t :=
  Recipe.mk 2 "Toast" (Some "Crisp bread"%string) ["bread"]%string
            ["Toast it"]%string 2.

Definition db0 : Db := mkDb [alice; bob] [omelet; toast] [(2, 1)] 3 3.

End Symbolic.

(** * Properties *)

(** ** The symbolic instance obeys the laws *)

Lemma Symbolic_crypt_verify_hash : verify_hash_law Symbolic.crypt.
Proof. intros s p. simpl. apply String.eqb_refl. Qed.

(** ** Lookups *)

Lemma get_Recipe_Some (db : Db) (recipe_id : Z) (r : Recipe.t) :
  get_Recipe db recipe_id = Some r ->
  In r (recipes db) /\ Recipe.id r = recipe_id.
Proof.
  unfold get_Recipe. intros H. apply find_some in H.
  destruct H as [Hin Hid]. split; [assumption | now apply Z.eqb_eq].
Qed.

Lemma same_row_eq (f g : favorite_row) : same_row f g = true <-> f = g.
Proof.
  unfold same_row. destruct f as [a b], g as [c d]. simpl.
  rewrite andb_true_iff, !Z.eqb_eq. split.
  - intros [-> ->]. reflexivity.
  - intros E. inversion E. split; reflexivity.
Qed.

(** ** The favorites handlers on the asynchronous session *)

(** Past the lookup of the recipe both handlers read
    [current_user.favorites]; the read raises and nothing is written. *)
Lemma add_favorite_unchanged (fav_req : FavoriteRequest.t) (db : Db) (u : User.t) :
  snd (add_favorite fav_req db u) = db.
Proof.
  unfold add_favorite.
  now destruct (get_Recipe db (FavoriteRequest.recipe_id fav_req)).
Qed.

Lemma remove_favorite_unchanged (recipe_id : Z) (db : Db) (u : User.t) :
  snd (remove_favorite recipe_id db u) = db.
Proof.
  unfold remove_favorite. now destruct (get_Recipe db recipe_id).
Qed.

(** C5. [add_favorite] on a stored recipe does not succeed, neither the
    first time nor the second: the read of [current_user.favorites] raises
    [MissingGreenlet] on the asynchronous session, and no favorites row is
    stored. *)
Theorem add_favorite_raises_on_stored_recipe
    (db : Db) (fav_req : FavoriteRequest.t) (r : Recipe.t) (u : User.t) :
  get_Recipe db (FavoriteRequest.recipe_id fav_req) = Some r ->
  add_favorite fav_req db u = (Raise MissingGreenlet, db)
  /\ add_favorite fav_req (snd (add_favorite fav_req db u)) u
     = (Raise MissingGreenlet, db).
Proof.
  intros Hget.
  assert (H : add_favorite fav_req db u = (Raise MissingGreenlet, db)).
  { unfold add_favorite. now rewrite Hget. }
  rewrite H. simpl. split; [reflexivity | exact H].
Qed.

Lemma add_favorite_raises_on_stored_recipe_witness :
  add_favorite (FavoriteRequest.mk 2) Symbolic.db0 Symbolic.alice
  = (Raise MissingGreenlet, Symbolic.db0).
Proof.
  exact (proj1
    (add_favorite_raises_on_stored_recipe Symbolic.db0 (FavoriteRequest.mk 2)
       Symbolic.toast Symbolic.alice eq_refl)).
Defined.

(** C6. [remove_favorite] on a stored recipe does not return normally,
    whether or not the user has favorited it: the read of
    [current_user.favorites] raises [MissingGreenlet]; the database is left
    as it was. *)
Theorem remove_favorite_raises_on_stored_recipe
    (db : Db) (recipe_id : Z) (r : Recipe.t) (u : User.t) :
  get_Recipe db recipe_id = Some r ->
  remove_favorite recipe_id db u = (Raise MissingGreenlet, db).
Proof.
  intros Hget. unfold remove_favorite. now rewrite Hget.
Qed.

Lemma remove_favorite_raises_on_stored_recipe_witness :
  remove_favorite 2 Symbolic.db0 Symbolic.bob
  = (Raise MissingGreenlet, Symbolic.db0).
Proof.
  exact (remove_favorite_raises_on_stored_recipe Symbolic.db0 2 Symbolic.toast
           Symbolic.bob eq_refl).
Defined.

(** ** Ownership *)

(** C7. A user who is not the owner of a stored recipe gets 403 Forbidden
    from both [update_recipe] and [delete_recipe]; neither call changes the
    database, so the recipe read back is the recipe that was stored. *)
Theorem non_owner_update_delete_forbidden
    (db : Db) (recipe_id : Z) (r : Recipe.t) (b : User.t)
    (recipe_update : RecipeBase.t) :
  get_Recipe db recipe_id = Some r ->
  Recipe.owner_id r <> User.id b ->
  update_recipe recipe_id recipe_update db b = (Raise forbidden, db)
  /\ delete_recipe recipe_id db b = (Raise forbidden, db)
  /\ get_Recipe (snd (update_recipe recipe_id recipe_update db b)) recipe_id = Some r
  /\ get_Recipe (snd (delete_recipe recipe_id db b)) recipe_id = Some r.
Proof.
  intros Hget Hown. apply Z.eqb_neq in Hown.
  unfold update_recipe, delete_recipe. rewrite Hget, Hown. simpl.
  repeat split; assumption.
Qed.

Lemma non_owner_update_delete_forbidden_witness :
  get_Recipe Symbolic.db0 1 = Some Symbolic.omelet
  /\ update_recipe 1 (RecipeBase.mk "Eggs" None false [] []) Symbolic.db0
       Symbolic.bob = (Raise forbidden, Symbolic.db0)
  /\ delete_recipe 1 Symbolic.db0 Symbolic.bob = (Raise forbidden, Symbolic.db0).
Proof.
  split; [reflexivity |].
  pose proof (non_owner_update_delete_forbidden Symbolic.db0 1 Symbolic.omelet
                Symbolic.bob (RecipeBase.mk "Eggs" None false [] [])
                eq_refl ltac:(simpl; lia)) as H.
  split; [exact (proj1 H) | exact (proj1 (proj2 H))].
Defined.

(** ** Keys *)

Section Distinct.

Context {A K : Type} (key : A -> K) (eqb : K -> K -> bool).
Hypothesis eqb_eq : forall x y : K, eqb x y = true <-> x = y.

Lemma filter_nil_iff (p : A -> bool) (l : list A) :
  (forall a, In a l -> p a = false) -> filter p l = [].
Proof.
  induction l as [| a l IH]; intros H; simpl; [reflexivity |].
  rewrite (H a (or_introl eq_refl)). apply IH.
  intros a' Ha'. apply H. now right.
Qed.

(** Under a unique key, a selection by key has at most one row. *)
Lemma distinct_select (l : list A) (k : K) :
  distinct eqb (map key l) = true ->
  (List.length (filter (fun a => eqb (key a) k) l) <= 1)%nat.
Proof.
  induction l as [| a l IH]; simpl; intros H; [lia |].
  apply andb_true_iff in H. destruct H as [Hn Hd].
  destruct (eqb (key a) k) eqn:E; [| now apply IH].
  simpl. rewrite filter_nil_iff; [simpl; lia |].
  intros b Hb. destruct (eqb (key b) k) eqn:Eb; [| reflexivity].
  exfalso. apply eqb_eq in E, Eb.
  apply negb_true_iff in Hn.
  assert (Hex : existsb (eqb (key a)) (map key l) = true).
  { apply existsb_exists. exists (key b). split.
    - now apply in_map.
    - apply eqb_eq. congruence. }
  congruence.
Qed.

(** A row of the table is selected by its key. *)
Lemma select_present (l : list A) (a : A) :
  In a l ->
  (1 <= List.length (filter (fun b => eqb (key b) (key a)) l))%nat.
Proof.
  induction l as [| b l IH]; simpl; intros H; [contradiction |].
  destruct H as [-> | H].
  - assert (E : eqb (key a) (key a) = true) by now apply eqb_eq.
    rewrite E. simpl. lia.
  - destruct (eqb (key b) (key a)); simpl; [lia | now apply IH].
Qed.

End Distinct.

Lemma select_row_unique (l : list favorite_row) (f : favorite_row) :
  distinct same_row l = true ->
  (List.length (filter (fun g => same_row g f) l) <= 1)%nat.
Proof.
  intros H.
  apply (distinct_select (fun g : favorite_row => g) same_row same_row_eq l f).
  now rewrite map_id.
Qed.

Lemma select_row_present (l : list favorite_row) (f : favorite_row) :
  In f l -> (1 <= List.length (filter (fun g => same_row g f) l))%nat.
Proof.
  apply (select_present (fun g : favorite_row => g) same_row same_row_eq).
Qed.

Lemma select_row_absent (l : list favorite_row) (f : favorite_row) :
  ~ In f l -> filter (fun g => same_row g f) l = [].
Proof.
  intros H. apply filter_nil_iff. intros g Hg.
  destruct (same_row g f) eqn:E; [| reflexivity].
  apply same_row_eq in E. subst g. contradiction.
Qed.

(** ** Partial update *)

Lemma setattr_fold (m : RecipeBase.t) (r : Recipe.t) :
  fold_left setattr (dict_exclude_unset m) r =
  Recipe.mk (Recipe.id r) (RecipeBase.title m)
    (if RecipeBase.description_set m then RecipeBase.description m
     else Recipe.description r)
    (RecipeBase.ingredients m) (RecipeBase.instructions m) (Recipe.owner_id r).
Proof.
  unfold dict_exclude_unset. destruct (RecipeBase.description_set m); reflexivity.
Qed.

Lemma get_Recipe_update_same (db : Db) (r r' : Recipe.t) :
  get_Recipe db (Recipe.id r') = Some r ->
  get_Recipe (update_Recipe db r') (Recipe.id r') = Some r'.
Proof.
  unfold get_Recipe, update_Recipe. simpl.
  induction (recipes db) as [| a l IH]; simpl; [discriminate |].
  destruct (Recipe.id a =? Recipe.id r') eqn:E.
  - intros _. now rewrite Z.eqb_refl.
  - rewrite E. exact IH.
Qed.

Lemma get_Recipe_update_other (db : Db) (r' : Recipe.t) (recipe_id : Z) :
  recipe_id <> Recipe.id r' ->
  get_Recipe (update_Recipe db r') recipe_id = get_Recipe db recipe_id.
Proof.
  intros Hne. unfold get_Recipe, update_Recipe. simpl.
  induction (recipes db) as [| a l IH]; simpl; [reflexivity |].
  destruct (Recipe.id a =? Recipe.id r') eqn:E.
  - apply Z.eqb_eq in E.
    assert (E1 : (Recipe.id r' =? recipe_id) = false) by (apply Z.eqb_neq; lia).
    assert (E2 : (Recipe.id a =? recipe_id) = false) by (apply Z.eqb_neq; lia).
    now rewrite E1, E2.
  - destruct (Recipe.id a =? recipe_id); [reflexivity | exact IH].
Qed.

(** C9. An update by the owner of a stored recipe writes the fields of the
    request that were supplied ([title], [ingredients], [instructions], and
    [description] when the request set it) and nothing else: an unset
    [description], the id and the owner keep their stored values, every other
    recipe reads back as before, and users and favorites are untouched. *)
Theorem owner_update_is_partial
    (db : Db) (recipe_id : Z) (r : Recipe.t) (u : User.t) (m : RecipeBase.t) :
  get_Recipe db recipe_id = Some r ->
  Recipe.owner_id r = User.id u ->
  let r' :=
    Recipe.mk (Recipe.id r) (RecipeBase.title m)
      (if RecipeBase.description_set m then RecipeBase.description m
       else Recipe.description r)
      (RecipeBase.ingredients m) (RecipeBase.instructions m)
      (Recipe.owner_id r) in
  let db' := snd (update_recipe recipe_id m db u) in
  fst (update_recipe recipe_id m db u)
    = Ok (response_of r' (Recipe.owner_id r) false)
  /\ get_Recipe db' recipe_id = Some r'
  /\ (forall other, other <> recipe_id ->
        get_Recipe db' other = get_Recipe db other)
  /\ users db' = users db
  /\ favorites db' = favorites db.
Proof.
  intros Hget Hown r' db'.
  destruct (get_Recipe_Some _ _ _ Hget) as [_ Hid].
  assert (Hup : update_recipe recipe_id m db u
                = (Ok (response_of r' (Recipe.owner_id r) false),
                   update_Recipe db r')).
  { unfold update_recipe. rewrite Hget, setattr_fold.
    apply Z.eqb_eq in Hown. now rewrite Hown. }
  subst db'. rewrite Hup. simpl.
  assert (Hid' : Recipe.id r' = recipe_id) by exact Hid.
  repeat split.
  - rewrite <- Hid'. apply (get_Recipe_update_same db r r').
    now rewrite Hid'.
  - intros other Hne. apply get_Recipe_update_other. now rewrite Hid'.
Qed.

Lemma owner_update_is_partial_witness :
  get_Recipe
    (snd (update_recipe 2 (RecipeBase.mk "Rye toast" None false
                             ["rye"%string] ["Toast it"%string])
            Symbolic.db0 Symbolic.bob)) 2
  = Some (Recipe.mk 2 "Rye toast" (Some "Crisp bread"%string) ["rye"%string]
                    ["Toast it"%string] 2).
Proof.
  exact (proj1 (proj2
    (owner_update_is_partial Symbolic.db0 2 Symbolic.toast Symbolic.bob
       (RecipeBase.mk "Rye toast" None false ["rye"%string] ["Toast it"%string])
       eq_refl eq_refl))).
Defined.

Lemma filter_all (A : Type) (p : A -> bool) (l : list A) :
  (forall a, In a l -> p a = true) -> filter p l = l.
Proof.
  induction l as [| a l IH]; intros H; simpl; [reflexivity |].
  rewrite (H a (or_introl eq_refl)). f_equal. apply IH.
  intros a' Ha'. apply H. now right.
Qed.

(** ** References from favorites to recipes *)

Lemma favorites_reference_recipes_spec (db : Db) :
  favorites_reference_recipes db = true <->
  (forall f, In f (favorites db) ->
     exists r, In r (recipes db) /\ Recipe.id r = snd f).
Proof.
  unfold favorites_reference_recipes. rewrite forallb_forall. split.
  - intros H f Hf. specialize (H f Hf). apply existsb_exists in H.
    destruct H as [r [Hr E]]. exists r. split; [assumption | now apply Z.eqb_eq].
  - intros H f Hf. destruct (H f Hf) as [r [Hr E]].
    apply existsb_exists. exists r. split; [assumption | now apply Z.eqb_eq].
Qed.

(** Registration writes neither recipes nor favorites. *)
Lemma register_frame {C : CryptContext} (s : salt) (user : UserCreate.t) (db : Db) :
  recipes (snd (register s user db)) = recipes db
  /\ favorites (snd (register s user db)) = favorites db.
Proof.
  unfold register.
  destruct (scalar_one_or_none (select_User_by_email db (UserCreate.email user)))
    as [[u |] | e]; simpl; split; reflexivity.
Qed.

Lemma references_after_update (db : Db) (r' : Recipe.t) :
  favorites_reference_recipes db = true ->
  favorites_reference_recipes (update_Recipe db r') = true.
Proof.
  rewrite !favorites_reference_recipes_spec. simpl. intros H f Hf.
  destruct (H f Hf) as [r [Hr E]].
  exists (if Recipe.id r =? Recipe.id r' then r' else r). split.
  - apply in_map_iff. exists r. split; [reflexivity | assumption].
  - destruct (Recipe.id r =? Recipe.id r') eqn:Er; [| assumption].
    apply Z.eqb_eq in Er. congruence.
Qed.

Lemma references_after_delete (db : Db) (r : Recipe.t) :
  favorites_reference_recipes db = true ->
  favorites_reference_recipes (delete_Recipe db r) = true.
Proof.
  rewrite !favorites_reference_recipes_spec. simpl. intros H f Hf.
  apply filter_In in Hf. destruct Hf as [Hf Hne].
  destruct (H f Hf) as [r0 [Hr0 E]]. exists r0. split; [| assumption].
  apply filter_In. split; [assumption |]. now rewrite E.
Qed.

Lemma references_after_step {C : CryptContext} (req : request) (db : Db) :
  favorites_reference_recipes db = true ->
  favorites_reference_recipes (step req db) = true.
Proof.
  intros H.
  destruct req as [s user | recipe u | rid m u | rid u | fav_req u | rid u]; simpl.
  - destruct (register_frame s user db) as [Hr Hf].
    unfold favorites_reference_recipes in *. now rewrite Hr, Hf.
  - apply favorites_reference_recipes_spec. simpl. intros f Hf.
    rewrite favorites_reference_recipes_spec in H.
    destruct (H f Hf) as [r [Hr E]]. exists r. split; [| assumption].
    apply in_or_app. now left.
  - unfold update_recipe. destruct (get_Recipe db rid) as [r |]; [| assumption].
    destruct (negb (Recipe.owner_id r =? User.id u)); [assumption |].
    now apply references_after_update.
  - unfold delete_recipe. destruct (get_Recipe db rid) as [r |]; [| assumption].
    destruct (negb (Recipe.owner_id r =? User.id u)); [assumption |].
    now apply references_after_delete.
  - rewrite add_favorite_unchanged. assumption.
  - rewrite remove_favorite_unchanged. assumption.
Qed.

Lemma get_Recipe_deleted (db : Db) (r : Recipe.t) :
  get_Recipe (delete_Recipe db r) (Recipe.id r) = None.
Proof.
  unfold get_Recipe, delete_Recipe. simpl.
  induction (recipes db) as [| a l IH]; simpl; [reflexivity |].
  destruct (Recipe.id a =? Recipe.id r) eqn:E; simpl; [exact IH |].
  now rewrite E.
Qed.

(** C10. Every favorites row references a stored recipe, and every writing
    request keeps it so; a [delete_recipe] that succeeds removes the recipe
    together with every favorites row that references it. *)
Theorem delete_recipe_cascades_to_favorites {C : CryptContext} (db : Db) :
  favorites_reference_recipes db = true ->
  (forall req : request, favorites_reference_recipes (step req db) = true)
  /\ (forall (recipe_id : Z) (u : User.t),
        fst (delete_recipe recipe_id db u) = Ok tt ->
        get_Recipe (snd (delete_recipe recipe_id db u)) recipe_id = None
        /\ forall f, In f (favorites (snd (delete_recipe recipe_id db u))) ->
                     snd f <> recipe_id).
Proof.
  intros H. split.
  - intros req. now apply references_after_step.
  - intros rid u. unfold delete_recipe.
    destruct (get_Recipe db rid) as [r |] eqn:Hget; [| discriminate].
    destruct (negb (Recipe.owner_id r =? User.id u)); [discriminate |].
    simpl. intros _. destruct (get_Recipe_Some _ _ _ Hget) as [_ Hid].
    split.
    + rewrite <- Hid. apply get_Recipe_deleted.
    + intros f Hf. apply filter_In in Hf. destruct Hf as [_ Hne].
      apply negb_true_iff, Z.eqb_neq in Hne. congruence.
Qed.

Lemma delete_recipe_cascades_to_favorites_witness :
  favorites_reference_recipes
    (step (C := Symbolic.crypt) (DeleteRecipe 1 Symbolic.alice) Symbolic.db0) = true
  /\ favorites (snd (delete_recipe 1 Symbolic.db0 Symbolic.alice)) = [].
Proof.
  split; [| reflexivity].
  exact (proj1 (delete_recipe_cascades_to_favorites (C := Symbolic.crypt)
                  Symbolic.db0 eq_refl)
               (DeleteRecipe 1 Symbolic.alice)).
Defined.

(** ** Registration and login *)

Lemma select_email_absent (db : Db) (email : string) :
  (forall u, In u (users db) -> User.email u <> email) ->
  select_User_by_email db email = [].
Proof.
  intros H. apply filter_nil_iff. intros u Hu.
  destruct (String.eqb (User.email u) email) eqn:E; [| reflexivity].
  apply String.eqb_eq in E. now apply H in Hu.
Qed.

Lemma select_email_present (db : Db) (u : User.t) :
  unique_emails db = true ->
  In u (users db) ->
  select_User_by_email db (User.email u) = [u].
Proof.
  intros Huniq Hin. unfold select_User_by_email.
  pose proof (distinct_select User.email String.eqb String.eqb_eq (users db)
                (User.email u) Huniq) as Hle.
  pose proof (select_present User.email String.eqb String.eqb_eq (users db) u Hin)
    as Hge.
  assert (Hu : In u (filter (fun a => String.eqb (User.email a) (User.email u))
                            (users db))).
  { apply filter_In. split; [assumption | apply String.eqb_refl]. }
  destruct (filter (fun a => String.eqb (User.email a) (User.email u)) (users db))
    as [| x [| y l]]; simpl in *.
  - contradiction.
  - destruct Hu as [-> | []]. reflexivity.
  - lia.
Qed.

(** C4. Registering an email that a stored user already has fails with
    400 "Email already registered" and leaves the database as it was. *)
Theorem register_duplicate_email {C : CryptContext}
    (s : salt) (user : UserCreate.t) (db : Db) (u : User.t) :
  unique_emails db = true ->
  In u (users db) ->
  User.email u = UserCreate.email user ->
  register s user db
  = (Raise (HTTPException 400 "Email already registered"), db).
Proof.
  intros Huniq Hin Hemail. unfold register.
  rewrite <- Hemail, (select_email_present db u Huniq Hin). reflexivity.
Qed.

Lemma register_duplicate_email_witness :
  register (C := Symbolic.crypt) "salt"%string
    (UserCreate.mk "alice@example.com" "another") Symbolic.db0
  = (Raise (HTTPException 400 "Email already registered"), Symbolic.db0).
Proof.
  apply (register_duplicate_email (C := Symbolic.crypt) "salt"%string
           (UserCreate.mk "alice@example.com" "another") Symbolic.db0
           Symbolic.alice).
  - reflexivity.
  - simpl. now left.
  - reflexivity.
Defined.

(** C3. A login for an email that no stored user has, and a login whose
    password does not verify against the stored hash, raise one and the
    same exception: 401 "Incorrect email or password". *)
Theorem login_failure_is_uniform {C : CryptContext} {J : Jose}
    (JWT_SECRET : string) (user : UserLogin.t) (db : Db) (now : Z) :
  unique_emails db = true ->
  (forall u, In u (users db) -> User.email u <> UserLogin.email user)
  \/ (exists u, In u (users db)
                /\ User.email u = UserLogin.email user
                /\ verify_password (UserLogin.password user)
                                   (User.hashed_password u) = false) ->
  login JWT_SECRET user db now
  = Raise (HTTPException 401 "Incorrect email or password").
Proof.
  intros Huniq [Hnone | [u [Hin [Hemail Hver]]]]; unfold login.
  - now rewrite (select_email_absent db _ Hnone).
  - rewrite <- Hemail, (select_email_present db u Huniq Hin). simpl.
    now rewrite Hver.
Qed.

Lemma login_failure_is_uniform_witness :
  login (C := Symbolic.crypt) (J := Symbolic.jose) "key"
    (UserLogin.mk "nobody@example.com" "secret1") Symbolic.db0 1000
  = Raise (HTTPException 401 "Incorrect email or password")
  /\ login (C := Symbolic.crypt) (J := Symbolic.jose) "key"
       (UserLogin.mk "alice@example.com" "wrong") Symbolic.db0 1000
     = Raise (HTTPException 401 "Incorrect email or password").
Proof.
  split.
  - apply (login_failure_is_uniform (C := Symbolic.crypt) (J := Symbolic.jose));
      [reflexivity | left].
    simpl. intros u [<- | [<- | []]]; discriminate.
  - apply (login_failure_is_uniform (C := Symbolic.crypt) (J := Symbolic.jose));
      [reflexivity | right].
    exists Symbolic.alice. simpl. repeat split. now left.
Defined.

Lemma select_id_fresh (db : Db) :
  user_ids_below_seq db = true ->
  select_User_by_id db (users_id_seq db) = [].
Proof.
  unfold user_ids_below_seq. rewrite forallb_forall. intros H.
  apply filter_nil_iff. intros u Hu. apply H in Hu.
  apply Z.ltb_lt in Hu. apply Z.eqb_neq. lia.
Qed.

Lemma Symbolic_jose_strict_refuses_integer_sub :
  decode_refuses_integer_sub Symbolic.jose_strict.
Proof.
  intros c key now n Hsub. simpl. rewrite Hsub. now rewrite andb_false_r.
Qed.

(** C2. When the password library verifies the hashes it makes and the
    token library refuses a payload whose ["sub"] is not a string:
    registering an email that no stored user has succeeds and a login with
    the same email and password succeeds, but the token that login returns
    never resolves to a user: [get_current_user] raises 401 "Could not
    validate credentials" on it, at any time and on any database, because
    login stores the integer id under ["sub"]. *)
Theorem login_token_is_refused {C : CryptContext} {J : Jose}
    (JWT_SECRET : string) (s : salt) (email password : string) (db : Db)
    (now : Z) :
  verify_hash_law C ->
  decode_refuses_integer_sub J ->
  (forall u, In u (users db) -> User.email u <> email) ->
  let registered := register s (UserCreate.mk email password) db in
  exists (resp : UserResponse.t) (t : Token.t),
    fst registered = Ok resp
    /\ UserResponse.email resp = email
    /\ login JWT_SECRET (UserLogin.mk email password) (snd registered) now = Ok t
    /\ forall (db' : Db) (now' : Z),
         get_current_user JWT_SECRET db' (Token.access_token t) now'
         = Raise (HTTPException 401 "Could not validate credentials").
Proof.
  intros Hhash Hjwt Hfresh registered.
  set (u0 := User.mk (users_id_seq db) email (hash_password s password) true).
  set (db1 := mkDb (users db ++ [u0]) (recipes db) (favorites db)
                   (users_id_seq db + 1) (recipes_id_seq db)).
  assert (Hreg : registered
                 = (Ok (UserResponse.mk (users_id_seq db) email true), db1)).
  { subst registered. unfold register. simpl.
    now rewrite (select_email_absent db email Hfresh). }
  assert (Hsel : select_User_by_email db1 email = [u0]).
  { unfold select_User_by_email. simpl. rewrite filter_app.
    fold (select_User_by_email db email).
    rewrite (select_email_absent db email Hfresh). simpl.
    now rewrite String.eqb_refl. }
  set (c := mkClaims (Some (sub_int (users_id_seq db)))
                     (Some (now + ACCESS_TOKEN_EXPIRE_MINUTES * 60))).
  exists (UserResponse.mk (users_id_seq db) email true),
         (Token.mk J (jwt_encode c JWT_SECRET) "bearer").
  rewrite Hreg. simpl. split; [reflexivity |]. split; [reflexivity |]. split.
  - unfold login. simpl. rewrite Hsel. simpl.
    unfold verify_password, hash_password. now rewrite Hhash.
  - intros db' now'. unfold get_current_user.
    now rewrite (Hjwt c JWT_SECRET now' (users_id_seq db) eq_refl).
Qed.

Lemma login_token_is_refused_witness :
  exists (resp : UserResponse.t) (t : Token.t),
    fst (register (C := Symbolic.crypt) "salt"%string
           (UserCreate.mk "carol@example.com" "hunter22") Symbolic.db0)
    = Ok resp
    /\ UserResponse.email resp = "carol@example.com"%string
    /\ login (C := Symbolic.crypt) (J := Symbolic.jose_strict) "key"
         (UserLogin.mk "carol@example.com" "hunter22")
         (snd (register (C := Symbolic.crypt) "salt"%string
                 (UserCreate.mk "carol@example.com" "hunter22") Symbolic.db0))
         1000
       = Ok t
    /\ forall (db' : Db) (now' : Z),
         get_current_user (J := Symbolic.jose_strict) "key" db'
           (Token.access_token t) now'
         = Raise (HTTPException 401 "Could not validate credentials").
Proof.
  apply (login_token_is_refused (C := Symbolic.crypt) (J := Symbolic.jose_strict)
           "key" "salt"%string "carol@example.com" "hunter22" Symbolic.db0 1000).
  - exact Symbolic_crypt_verify_hash.
  - exact Symbolic_jose_strict_refuses_integer_sub.
  - simpl. intros u [<- | [<- | []]]; discriminate.
Defined.

(** ** Identity on the read routes *)

(** The handlers themselves serve a caller without identity: no favorite
    flag is set. *)
Lemma browse_recipes_anonymous (db : Db) (q : option string) (skip limit : Z)
    (page : RecipeListResponse.t) :
  browse_recipes db q skip limit None = Ok page ->
  forall resp, In resp (RecipeListResponse.recipes page) ->
               RecipeResponse.is_favorite resp = false.
Proof.
  unfold browse_recipes.
  destruct (browse_query db q skip limit) as [rows | e]; simpl; [| discriminate].
  intros E. inversion E. subst page. simpl. intros resp Hin.
  apply in_map_iff in Hin. destruct Hin as [r [<- _]]. reflexivity.
Qed.

Lemma get_recipe_anonymous (db : Db) (recipe_id : Z) (resp : RecipeResponse.t) :
  get_recipe recipe_id db None = Ok resp ->
  RecipeResponse.is_favorite resp = false.
Proof.
  unfold get_recipe. destruct (get_Recipe db recipe_id); [| discriminate].
  intros E. inversion E. reflexivity.
Qed.

(** A token that does not decode (bad signature, malformed, expired) is
    answered with 401 by both read routes. *)
Lemma read_routes_reject_invalid_token {J : Jose} (JWT_SECRET : string)
    (db : Db) (tok : token) (q : option string) (skip limit recipe_id now : Z) :
  jwt_decode tok JWT_SECRET now = None ->
  route_browse_recipes JWT_SECRET db (Some ("Bearer"%string, tok)) q skip limit now
  = Raise credentials_exception
  /\ route_get_recipe JWT_SECRET recipe_id db (Some ("Bearer"%string, tok)) now
     = Raise credentials_exception.
Proof.
  intros H.
  unfold route_browse_recipes, route_get_recipe, depends_get_current_user,
    get_current_user.
  simpl. rewrite H. split; reflexivity.
Qed.

(** C1. A request without a bearer token is not served anonymously by the
    read routes: [GET /recipes/] and [GET /recipes/{recipe_id}] both answer
    401 "Not authenticated", whatever the database holds. *)
Theorem read_routes_reject_missing_token {J : Jose} (JWT_SECRET : string)
    (db : Db) (q : option string) (skip limit recipe_id now : Z) :
  route_browse_recipes JWT_SECRET db None q skip limit now
  = Raise (HTTPException 401 "Not authenticated")
  /\ route_get_recipe JWT_SECRET recipe_id db None now
     = Raise (HTTPException 401 "Not authenticated").
Proof. split; reflexivity. Qed.

(** ** Search *)

Lemma like_parse_wrapped (q : string) (esc : bool) :
  like_parse esc (q ++ "%") <> None.
Proof.
  revert esc. induction q as [| c q IH]; intros esc; simpl.
  - destruct esc; discriminate.
  - destruct esc.
    + specialize (IH false). destruct (like_parse false (q ++ "%")); simpl;
        [discriminate | contradiction].
    + destruct (Ascii.eqb c "\"); [apply IH |].
      specialize (IH false).
      destruct (Ascii.eqb c "%"), (Ascii.eqb c "_"),
        (like_parse false (q ++ "%")); simpl;
        solve [discriminate | contradiction].
Qed.

(** The statement of [browse_recipes] never sends a pattern that the
    server rejects. *)
Lemma browse_pattern_well_formed (q : string) :
  exists pat, like_parse false ("%" ++ q ++ "%") = Some pat.
Proof.
  destruct (like_parse false ("%" ++ q ++ "%")) as [pat |] eqn:E.
  - now exists pat.
  - simpl in E. pose proof (like_parse_wrapped q false) as H.
    destruct (like_parse false (q ++ "%")); [discriminate | contradiction].
Qed.

Lemma like_parse_plain (q : string) :
  wildcard_free q = true ->
  like_parse false (q ++ "%") = Some (literals q ++ [LAny]).
Proof.
  induction q as [| c q IH]; simpl; intros H; [reflexivity |].
  apply andb_true_iff in H. destruct H as [H Hq].
  apply andb_true_iff in H. destruct H as [H H3].
  apply andb_true_iff in H. destruct H as [H1 H2].
  apply negb_true_iff in H1, H2, H3. rewrite H1, H2, H3, (IH Hq). reflexivity.
Qed.

Lemma like_match_any (p : list like_tok) (s : string) :
  like_match (LAny :: p) s
  = like_match p s
    || match s with
       | EmptyString => false
       | String _ s' => like_match (LAny :: p) s'
       end.
Proof. destruct s; reflexivity. Qed.

Lemma like_match_rest (s : string) : like_match [LAny] s = true.
Proof.
  induction s as [| c s IH]; [reflexivity |].
  rewrite like_match_any, IH. apply orb_true_r.
Qed.

Lemma like_match_literals (q s : string) :
  like_match (literals q ++ [LAny]) s
  = String.prefix (lower_string q) (lower_string s).
Proof.
  revert s. induction q as [| a q IH]; intros s.
  - simpl literals. simpl app. rewrite like_match_rest. now destruct s.
  - destruct s as [| b s]; simpl; [reflexivity |].
    rewrite IH. destruct (ascii_dec (lower a) (lower b)) as [E | E].
    + rewrite E, Ascii.eqb_refl. reflexivity.
    + apply Ascii.eqb_neq in E. now rewrite E.
Qed.

(** For a query free of wildcards, [ILIKE '%q%'] is containment whatever
    the case. *)
Lemma like_match_contains (q s : string) :
  like_match (LAny :: literals q ++ [LAny]) s = icontains q s.
Proof.
  unfold icontains. induction s as [| b s IH].
  - rewrite like_match_any, like_match_literals. reflexivity.
  - rewrite like_match_any, like_match_literals, IH. reflexivity.
Qed.

(** On such queries the WHERE clause of the code and the match of the
    specification select the same recipes. *)
Lemma browse_query_plain (db : Db) (q : string) (skip limit : Z) :
  q <> EmptyString ->
  wildcard_free q = true ->
  browse_query db (Some q) skip limit
  = offset_limit skip limit (filter (spec_match q) (recipes db)).
Proof.
  intros Hne Hfree. unfold browse_query.
  destruct q as [| c q]; [contradiction |].
  change (like_parse false ("%" ++ String c q ++ "%"))
    with (option_map (cons LAny) (like_parse false (String c q ++ "%"))).
  rewrite (like_parse_plain (String c q) Hfree).
  cbv beta iota delta [option_map].
  f_equal. apply filter_ext. intros r.
  unfold search_clause, spec_match.
  rewrite like_match_contains.
  destruct (Recipe.description r) as [d |]; cbv beta iota delta [option_map].
  - rewrite like_match_contains.
    destruct (icontains (String c q) (Recipe.title r)),
      (icontains (String c q) d),
      (existsb (String.eqb (String c q)) (Recipe.ingredients r)); reflexivity.
  - destruct (icontains (String c q) (Recipe.title r)),
      (existsb (String.eqb (String c q)) (Recipe.ingredients r)); reflexivity.
Qed.

(** C8. The query ["%"] is taken as a LIKE wildcard: [browse_recipes]
    returns both stored recipes, although neither has ["%"] in its title or
    description nor as an ingredient. *)
Theorem browse_wildcard_query_overmatches :
  browse_recipes Symbolic.db0 (Some "%"%string) 0 20 None
  = Ok (RecipeListResponse.mk
          [response_of Symbolic.omelet 1 false; response_of Symbolic.toast 2 false]
          2)
  /\ spec_match "%" Symbolic.omelet = false
  /\ spec_match "%" Symbolic.toast = false.
Proof. repeat split; reflexivity. Qed.

(** ** The schema constraints hold in every reachable database *)

Lemma distinct_snoc (A : Type) (eqb : A -> A -> bool) (l : list A) (x : A) :
  distinct eqb l = true ->
  (forall y, In y l -> eqb y x = false) ->
  distinct eqb (l ++ [x]) = true.
Proof.
  induction l as [| a l IH]; simpl; intros Hd Hx; [reflexivity |].
  apply andb_true_iff in Hd. destruct Hd as [Ha Hd].
  apply andb_true_iff. split.
  - rewrite existsb_app. simpl. rewrite (Hx a (or_introl eq_refl)).
    apply negb_true_iff in Ha. now rewrite Ha.
  - apply IH; [assumption |]. intros y Hy. apply Hx. now right.
Qed.

Lemma distinct_filter (A K : Type) (key : A -> K) (eqb : K -> K -> bool)
    (p : A -> bool) (l : list A) :
  distinct eqb (map key l) = true ->
  distinct eqb (map key (filter p l)) = true.
Proof.
  induction l as [| a l IH]; simpl; intros Hd; [reflexivity |].
  apply andb_true_iff in Hd. destruct Hd as [Ha Hd].
  destruct (p a); simpl; [| now apply IH].
  apply andb_true_iff. split; [| now apply IH].
  apply negb_true_iff. apply negb_true_iff in Ha.
  destruct (existsb (eqb (key a)) (map key (filter p l))) eqn:E; [| reflexivity].
  apply existsb_exists in E. destruct E as [k [Hk Ek]].
  apply in_map_iff in Hk. destruct Hk as [b [<- Hb]].
  apply filter_In in Hb. destruct Hb as [Hb _].
  assert (Hex : existsb (eqb (key a)) (map key l) = true).
  { apply existsb_exists. exists (key b). split; [now apply in_map | assumption]. }
  congruence.
Qed.

Lemma update_keeps_ids (l : list Recipe.t) (r' : Recipe.t) :
  map Recipe.id
      (map (fun r0 => if Recipe.id r0 =? Recipe.id r' then r' else r0) l)
  = map Recipe.id l.
Proof.
  rewrite map_map. apply map_ext. intros r0.
  destruct (Recipe.id r0 =? Recipe.id r') eqn:E; [| reflexivity].
  apply Z.eqb_eq in E. now rewrite E.
Qed.

Lemma below_seq_ids (l : list Recipe.t) (n : Z) :
  forallb (fun r => Recipe.id r <? n) l = forallb (fun i => i <? n) (map Recipe.id l).
Proof. induction l as [| a l IH]; simpl; [reflexivity | now rewrite IH]. Qed.

Lemma unique_emails_step {C : CryptContext} (req : request) (db : Db) :
  unique_emails db = true -> unique_emails (step req db) = true.
Proof.
  intros H.
  destruct req as [s user | recipe u | rid m u | rid u | fav_req u | rid u]; simpl.
  - unfold register.
    destruct (select_User_by_email db (UserCreate.email user))
      as [| x [| y l]] eqn:E; simpl; try assumption.
    unfold unique_emails. simpl. rewrite map_app. simpl.
    apply distinct_snoc; [assumption |].
    intros e He. apply in_map_iff in He. destruct He as [u0 [<- Hu0]].
    destruct (String.eqb (User.email u0) (UserCreate.email user)) eqn:Eu;
      [| reflexivity].
    assert (Hin : In u0 (select_User_by_email db (UserCreate.email user))).
    { apply filter_In. now split. }
    rewrite E in Hin. contradiction.
  - assumption.
  - unfold update_recipe. destruct (get_Recipe db rid) as [r |]; [| assumption].
    now destruct (negb (Recipe.owner_id r =? User.id u)).
  - unfold delete_recipe. destruct (get_Recipe db rid) as [r |]; [| assumption].
    now destruct (negb (Recipe.owner_id r =? User.id u)).
  - rewrite add_favorite_unchanged. assumption.
  - rewrite remove_favorite_unchanged. assumption.
Qed.

Lemma user_ids_below_seq_step {C : CryptContext} (req : request) (db : Db) :
  user_ids_below_seq db = true -> user_ids_below_seq (step req db) = true.
Proof.
  intros H.
  destruct req as [s user | recipe u | rid m u | rid u | fav_req u | rid u]; simpl.
  - unfold register.
    destruct (scalar_one_or_none
                (select_User_by_email db (UserCreate.email user)))
      as [[x |] | e]; simpl; try assumption.
    unfold user_ids_below_seq in *. simpl. rewrite forallb_app. simpl.
    apply andb_true_iff. split.
    + rewrite forallb_forall in *. intros u0 Hu0. specialize (H u0 Hu0).
      apply Z.ltb_lt in H. apply Z.ltb_lt. lia.
    + apply andb_true_iff. split; [apply Z.ltb_lt; lia | reflexivity].
  - assumption.
  - unfold update_recipe. destruct (get_Recipe db rid) as [r |]; [| assumption].
    now destruct (negb (Recipe.owner_id r =? User.id u)).
  - unfold delete_recipe. destruct (get_Recipe db rid) as [r |]; [| assumption].
    now destruct (negb (Recipe.owner_id r =? User.id u)).
  - rewrite add_favorite_unchanged. assumption.
  - rewrite remove_favorite_unchanged. assumption.
Qed.

Lemma recipes_keys_step {C : CryptContext} (req : request) (db : Db) :
  recipes_primary_key db = true ->
  recipe_ids_below_seq db = true ->
  recipes_primary_key (step req db) = true
  /\ recipe_ids_below_seq (step req db) = true.
Proof.
  intros Hpk Hseq.
  destruct req as [s user | recipe u | rid m u | rid u | fav_req u | rid u]; simpl.
  - destruct (register_frame s user db) as [Hr _].
    unfold recipes_primary_key, recipe_ids_below_seq in *. rewrite Hr.
    split; [assumption |].
    unfold register.
    destruct (scalar_one_or_none
                (select_User_by_email db (UserCreate.email user)))
      as [[x |] | e]; simpl; assumption.
  - unfold recipes_primary_key, recipe_ids_below_seq in *. simpl.
    rewrite map_app, forallb_app. simpl.
    rewrite forallb_forall in Hseq. split.
    + apply distinct_snoc; [assumption |].
      intros i Hi. apply in_map_iff in Hi. destruct Hi as [r [<- Hr]].
      specialize (Hseq r Hr). apply Z.ltb_lt in Hseq. apply Z.eqb_neq. lia.
    + apply andb_true_iff. split.
      * apply forallb_forall. intros r Hr. specialize (Hseq r Hr).
        apply Z.ltb_lt in Hseq. apply Z.ltb_lt. lia.
      * apply andb_true_iff. split; [apply Z.ltb_lt; lia | reflexivity].
  - unfold update_recipe.
    destruct (get_Recipe db rid) as [r |]; [| now split].
    destruct (negb (Recipe.owner_id r =? User.id u)); [now split |].
    unfold recipes_primary_key, recipe_ids_below_seq in *. simpl.
    rewrite below_seq_ids, update_keeps_ids, <- below_seq_ids. now split.
  - unfold delete_recipe.
    destruct (get_Recipe db rid) as [r |]; [| now split].
    destruct (negb (Recipe.owner_id r =? User.id u)); [now split |].
    unfold recipes_primary_key, recipe_ids_below_seq in *. simpl. split.
    + now apply distinct_filter.
    + rewrite forallb_forall in *. intros r0 Hr0.
      apply filter_In in Hr0. now apply Hseq.
  - rewrite add_favorite_unchanged. now split.
  - rewrite remove_favorite_unchanged. now split.
Qed.

Lemma favorites_primary_key_step {C : CryptContext} (req : request) (db : Db) :
  favorites_primary_key db = true ->
  favorites_primary_key (step req db) = true.
Proof.
  intros H.
  destruct req as [s user | recipe u | rid m u | rid u | fav_req u | rid u]; simpl.
  - destruct (register_frame s user db) as [_ Hf].
    unfold favorites_primary_key in *. now rewrite Hf.
  - assumption.
  - unfold update_recipe. destruct (get_Recipe db rid) as [r |]; [| assumption].
    now destruct (negb (Recipe.owner_id r =? User.id u)).
  - unfold delete_recipe. destruct (get_Recipe db rid) as [r |]; [| assumption].
    destruct (negb (Recipe.owner_id r =? User.id u)); [assumption |].
    unfold favorites_primary_key in *. simpl.
    rewrite <- (map_id (filter _ (favorites db))).
    apply distinct_filter. now rewrite map_id.
  - rewrite add_favorite_unchanged. assumption.
  - rewrite remove_favorite_unchanged. assumption.
Qed.

(** The constraints hold before the first request and after every request. *)
Lemma schema_ok_empty : schema_ok empty_db = true.
Proof. reflexivity. Qed.

Lemma schema_ok_step {C : CryptContext} (req : request) (db : Db) :
  schema_ok db = true -> schema_ok (step req db) = true.
Proof.
  unfold schema_ok. rewrite !andb_true_iff.
  intros [[[[[H1 H2] H3] H4] H5] H6].
  destruct (recipes_keys_step req db H3 H4) as [H3' H4'].
  repeat split.
  - now apply unique_emails_step.
  - now apply user_ids_below_seq_step.
  - exact H3'.
  - exact H4'.
  - now apply favorites_primary_key_step.
  - now apply references_after_step.
Qed.

Lemma schema_ok_run {C : CryptContext} (reqs : list request) :
  schema_ok (fold_left (fun db req => step req db) reqs empty_db) = true.
Proof.
  assert (H : forall db, schema_ok db = true ->
            schema_ok (fold_left (fun db req => step req db) reqs db) = true).
  { induction reqs as [| req reqs IH]; intros db Hdb; simpl; [assumption |].
    apply IH. now apply schema_ok_step. }
  apply H. exact schema_ok_empty.
Qed.

(** * Further properties of the handlers *)

(** ** The schema over whole runs *)

(** X1. Starting from the empty database, after any sequence of writing
    requests (register, create, update, delete, add and remove favorite, by
    any users and with any arguments) emails are unique, the keys of
    recipes and favorites are unique, the id sequences are ahead of the
    stored ids, and every favorites row references a stored recipe. *)
Theorem reachable_database_keeps_schema {C : CryptContext} (reqs : list request) :
  let db := fold_left (fun db req => step req db) reqs empty_db in
  unique_emails db = true
  /\ user_ids_below_seq db = true
  /\ recipes_primary_key db = true
  /\ recipe_ids_below_seq db = true
  /\ favorites_primary_key db = true
  /\ favorites_reference_recipes db = true.
Proof.
  intros db. pose proof (schema_ok_run reqs) as H. fold db in H.
  unfold schema_ok in H. rewrite !andb_true_iff in H.
  destruct H as [[[[[H1 H2] H3] H4] H5] H6]. repeat split; assumption.
Qed.

(** ** Reading one recipe *)

Lemma get_Recipe_None (db : Db) (recipe_id : Z) :
  get_Recipe db recipe_id = None <->
  (forall r, In r (recipes db) -> Recipe.id r <> recipe_id).
Proof.
  unfold get_Recipe. split.
  - intros H r Hr. apply Z.eqb_neq. exact (find_none _ _ H r Hr).
  - intros H. induction (recipes db) as [| a l IH]; simpl; [reflexivity |].
    destruct (Recipe.id a =? recipe_id) eqn:E.
    + apply Z.eqb_eq in E. exfalso. exact (H a (or_introl eq_refl) E).
    + apply IH. intros r Hr. apply H. now right.
Qed.

(** X2. For an id that the Integer key column can hold, [get_recipe]
    answers 404 "Recipe not found" exactly when no stored recipe has the id,
    for any viewer; otherwise it returns the id, title, description,
    ingredients, instructions and owner of a stored recipe with that id. *)
Theorem get_recipe_found_or_404
    (db : Db) (recipe_id : Z) (viewer : option User.t) :
  int32 recipe_id ->
  match get_recipe recipe_id db viewer with
  | Ok resp =>
      exists r, In r (recipes db) /\ Recipe.id r = recipe_id
                /\ resp = response_of r (Recipe.owner_id r)
                            (RecipeResponse.is_favorite resp)
  | Raise e =>
      e = HTTPException 404 "Recipe not found"
      /\ forall r, In r (recipes db) -> Recipe.id r <> recipe_id
  end.
Proof.
  intros _.
  unfold get_recipe. destruct (get_Recipe db recipe_id) as [r |] eqn:Hget.
  - destruct (get_Recipe_Some _ _ _ Hget) as [Hin Hid].
    exists r. repeat split; assumption.
  - split; [reflexivity | now apply get_Recipe_None].
Qed.

Lemma int32_7 : int32 7.
Proof. unfold int32. split; [vm_compute; discriminate | vm_compute; reflexivity]. Qed.

Lemma get_recipe_found_or_404_witness :
  HTTPException 404 "Recipe not found" = HTTPException 404 "Recipe not found"
  /\ (forall r, In r (recipes Symbolic.db0) -> Recipe.id r <> 7).
Proof.
  exact (get_recipe_found_or_404 Symbolic.db0 7 None int32_7).
Defined.

(** What the join of recipes, favorites and users selects. *)
Lemma select_favorite_ids_In (db : Db) (uid recipe_id : Z) :
  In recipe_id (select_favorite_ids db uid) <->
  (exists r, In r (recipes db) /\ Recipe.id r = recipe_id)
  /\ In (uid, recipe_id) (favorites db)
  /\ (exists u, In u (users db) /\ User.id u = uid).
Proof.
  unfold select_favorite_ids. rewrite in_flat_map. split.
  - intros [r [Hr H]]. apply in_flat_map in H. destruct H as [[a b] [Hf H]].
    simpl in H. destruct (b =? Recipe.id r) eqn:Eb; [| contradiction].
    apply in_flat_map in H. destruct H as [u [Hu H]].
    destruct ((User.id u =? a) && (User.id u =? uid)) eqn:Eu; [| contradiction].
    destruct H as [<- | []].
    apply andb_true_iff in Eu. destruct Eu as [E1 E2].
    apply Z.eqb_eq in Eb, E1, E2. subst b. rewrite <- E1, E2 in Hf.
    repeat split; [exists r | assumption | exists u]; now split.
  - intros [[r [Hr Hid]] [Hf [u [Hu Huid]]]]. exists r. split; [assumption |].
    apply in_flat_map. exists (uid, recipe_id). split; [assumption |].
    simpl. rewrite Hid, Z.eqb_refl.
    apply in_flat_map. exists u. split; [assumption |].
    rewrite Huid, Z.eqb_refl. simpl. now left.
Qed.

Lemma bool_of_scalar_filter (recipe_id : Z) (l : list Z) :
  bool_of_scalar (filter (Z.eqb recipe_id) l) = true <->
  recipe_id <> 0 /\ In recipe_id l.
Proof.
  destruct (filter (Z.eqb recipe_id) l) as [| x l'] eqn:E; simpl.
  - split; [discriminate |]. intros [_ Hin].
    assert (H : In recipe_id (filter (Z.eqb recipe_id) l)).
    { apply filter_In. split; [assumption | apply Z.eqb_refl]. }
    rewrite E in H. contradiction.
  - assert (H : In x (filter (Z.eqb recipe_id) l)) by (rewrite E; now left).
    apply filter_In in H. destruct H as [Hin Hx]. apply Z.eqb_eq in Hx. subst x.
    rewrite negb_true_iff, Z.eqb_neq. split; [now split | now intros [H _]].
Qed.

(** X3. For a stored viewer and a recipe id other than 0, the favorite flag
    that [get_recipe] returns is true exactly when the favorites table holds
    the row of the viewer and the recipe. *)
Theorem get_recipe_flag_is_the_favorites_row
    (db : Db) (recipe_id : Z) (u : User.t) (resp : RecipeResponse.t) :
  In u (users db) ->
  recipe_id <> 0 ->
  get_recipe recipe_id db (Some u) = Ok resp ->
  RecipeResponse.is_favorite resp = true <->
  In (User.id u, recipe_id) (favorites db).
Proof.
  intros Hu Hnz. unfold get_recipe.
  destruct (get_Recipe db recipe_id) as [r |] eqn:Hget; [| discriminate].
  destruct (get_Recipe_Some _ _ _ Hget) as [Hr Hid].
  intros E. inversion E. subst resp. simpl.
  rewrite bool_of_scalar_filter, select_favorite_ids_In. split.
  - intros [_ [_ [Hf _]]]. exact Hf.
  - intros Hf. repeat split; [assumption | exists r | assumption | exists u];
      now split.
Qed.

Lemma get_recipe_flag_is_the_favorites_row_witness :
  RecipeResponse.is_favorite
    (response_of Symbolic.omelet 1 true) = true <->
  In (2, 1) (favorites Symbolic.db0).
Proof.
  apply (get_recipe_flag_is_the_favorites_row Symbolic.db0 1 Symbolic.bob
           (response_of Symbolic.omelet 1 true)).
  - simpl. right. now left.
  - discriminate.
  - reflexivity.
Defined.

(** ** Browsing *)

Lemma page_incl (A : Type) (n m : nat) (l : list A) (x : A) :
  In x (firstn n (skipn m l)) -> In x l.
Proof.
  intros H. rewrite <- (firstn_skipn m l). apply in_or_app. right.
  rewrite <- (firstn_skipn n (skipn m l)). apply in_or_app. now left.
Qed.

Lemma offset_limit_Ok (A : Type) (skip limit : Z) (rows page : list A) :
  offset_limit skip limit rows = Ok page ->
  0 <= skip /\ 0 <= limit
  /\ page = firstn (Z.to_nat limit) (skipn (Z.to_nat skip) rows).
Proof.
  unfold offset_limit.
  destruct (negb (int64b skip && int64b limit)); [discriminate |].
  destruct (skip <? 0) eqn:Es; [discriminate |].
  destruct (limit <? 0) eqn:El; [discriminate |].
  apply Z.ltb_ge in Es, El. intros E. inversion E. repeat split; assumption.
Qed.

(** The rows of the statement are stored recipes, [limit] at most. *)
Lemma browse_query_rows (db : Db) (q : option string) (skip limit : Z)
    (rows : list Recipe.t) :
  browse_query db q skip limit = Ok rows ->
  (forall r, In r rows -> In r (recipes db))
  /\ Z.of_nat (List.length rows) <= limit.
Proof.
  intros H.
  assert (Hex : exists all, (forall r, In r all -> In r (recipes db))
                            /\ offset_limit skip limit all = Ok rows).
  { unfold browse_query in H. destruct q as [[| c q] |].
    - exists (recipes db). now split.
    - destruct (like_parse false ("%" ++ String c q ++ "%")) as [pat |];
        [| discriminate].
      eexists. split; [| exact H]. intros r Hr. now apply filter_In in Hr.
    - exists (recipes db). now split. }
  destruct Hex as [all [Hall Hpage]].
  apply offset_limit_Ok in Hpage. destruct Hpage as [_ [Hl ->]]. split.
  - intros r Hr. apply Hall. now apply page_incl in Hr.
  - rewrite length_firstn. lia.
Qed.

(** X4. [browse_recipes] reports as [total] the number of recipes in the
    page it returns, which is at most [limit]; every entry of the page
    carries the fields of a stored recipe. *)
Theorem browse_total_is_page_size
    (db : Db) (q : option string) (skip limit : Z) (viewer : option User.t)
    (page : RecipeListResponse.t) :
  browse_recipes db q skip limit viewer = Ok page ->
  RecipeListResponse.total page
    = Z.of_nat (List.length (RecipeListResponse.recipes page))
  /\ 0 <= RecipeListResponse.total page <= limit
  /\ forall resp, In resp (RecipeListResponse.recipes page) ->
       exists r, In r (recipes db)
                 /\ resp = response_of r (Recipe.owner_id r)
                             (RecipeResponse.is_favorite resp).
Proof.
  unfold browse_recipes.
  destruct (browse_query db q skip limit) as [rows | e] eqn:Hq; simpl;
    [| discriminate].
  destruct (browse_query_rows db q skip limit rows Hq) as [Hin Hlen].
  intros E. inversion E. subst page. simpl. rewrite length_map.
  repeat split; try lia.
  intros resp Hresp. apply in_map_iff in Hresp. destruct Hresp as [r [<- Hr]].
  exists r. split; [now apply Hin | reflexivity].
Qed.

Lemma browse_total_is_page_size_witness :
  RecipeListResponse.total
    (RecipeListResponse.mk [response_of Symbolic.toast 2 false] 1)
  = Z.of_nat (List.length [response_of Symbolic.toast 2 false]).
Proof.
  exact (proj1
    (browse_total_is_page_size Symbolic.db0 None 1 1 (Some Symbolic.alice)
       (RecipeListResponse.mk [response_of Symbolic.toast 2 false] 1) eq_refl)).
Defined.

(** X5. For a stored viewer, an entry of the page that [browse_recipes]
    returns is flagged as favorite exactly when the favorites table holds the
    row of the viewer and that recipe. *)
Theorem browse_flag_is_the_favorites_row
    (db : Db) (q : option string) (skip limit : Z) (u : User.t)
    (page : RecipeListResponse.t) (resp : RecipeResponse.t) :
  In u (users db) ->
  browse_recipes db q skip limit (Some u) = Ok page ->
  In resp (RecipeListResponse.recipes page) ->
  RecipeResponse.is_favorite resp = true <->
  In (User.id u, RecipeResponse.id resp) (favorites db).
Proof.
  intros Hu. unfold browse_recipes.
  destruct (browse_query db q skip limit) as [rows | e] eqn:Hq; simpl;
    [| discriminate].
  destruct (browse_query_rows db q skip limit rows Hq) as [Hin _].
  intros E. inversion E. subst page. simpl. intros Hresp.
  apply in_map_iff in Hresp. destruct Hresp as [r [<- Hr]]. simpl.
  rewrite existsb_exists. split.
  - intros [i [Hi Ei]]. apply Z.eqb_eq in Ei. subst i.
    now apply select_favorite_ids_In in Hi.
  - intros Hf. exists (Recipe.id r). split; [| apply Z.eqb_refl].
    apply select_favorite_ids_In.
    repeat split; [exists r | assumption | exists u]; split;
      solve [now apply Hin | reflexivity | assumption].
Qed.

Lemma browse_flag_is_the_favorites_row_witness :
  RecipeResponse.is_favorite (response_of Symbolic.omelet 1 true) = true <->
  In (2, 1) (favorites Symbolic.db0).
Proof.
  apply (browse_flag_is_the_favorites_row Symbolic.db0 (Some "egg"%string) 0 20
           Symbolic.bob
           (RecipeListResponse.mk [response_of Symbolic.omelet 1 true] 1)
           (response_of Symbolic.omelet 1 true)).
  - simpl. right. now left.
  - reflexivity.
  - simpl. now left.
Defined.

(** X7. On ASCII text (the query, and the titles and descriptions of the
    stored recipes): for a non-empty query without [%], [_] and backslash,
    every entry that [browse_recipes] returns is a stored recipe whose title
    or description contains the query whatever the case, or that has the
    query as an ingredient; and the first page, when [limit] covers the
    table, holds every such recipe. *)
Theorem browse_plain_query_is_containment
    (db : Db) (q : string) (skip limit : Z) (viewer : option User.t)
    (page : RecipeListResponse.t) :
  q <> EmptyString ->
  wildcard_free q = true ->
  ascii_only q = true ->
  (forall r, In r (recipes db) -> ascii_recipe r = true) ->
  browse_recipes db (Some q) skip limit viewer = Ok page ->
  (forall resp, In resp (RecipeListResponse.recipes page) ->
     exists r, In r (recipes db) /\ spec_match q r = true
               /\ resp = response_of r (Recipe.owner_id r)
                           (RecipeResponse.is_favorite resp))
  /\ (skip = 0 -> Z.of_nat (List.length (recipes db)) <= limit ->
      forall r, In r (recipes db) -> spec_match q r = true ->
        exists resp, In resp (RecipeListResponse.recipes page)
                     /\ resp = response_of r (Recipe.owner_id r)
                                 (RecipeResponse.is_favorite resp)).
Proof.
  intros Hne Hfree _ _. unfold browse_recipes.
  rewrite (browse_query_plain db q skip limit Hne Hfree).
  destruct (offset_limit skip limit (filter (spec_match q) (recipes db)))
    as [rows | e] eqn:Hrows; simpl; [| discriminate].
  apply offset_limit_Ok in Hrows. destruct Hrows as [_ [_ Hrows]].
  intros E. inversion E. subst page. simpl. split.
  - intros resp Hresp. apply in_map_iff in Hresp. destruct Hresp as [r [<- Hr]].
    rewrite Hrows in Hr. apply page_incl, filter_In in Hr.
    exists r. repeat split; tauto.
  - intros -> Hlimit r Hr Hm.
    assert (Hall : rows = filter (spec_match q) (recipes db)).
    { rewrite Hrows. simpl. apply firstn_all2.
      pose proof (filter_length_le (spec_match q) (recipes db)). lia. }
    eexists. split.
    + apply in_map_iff. exists r. split; [reflexivity |].
      rewrite Hall. apply filter_In. now split.
    + reflexivity.
Qed.

Lemma browse_plain_query_is_containment_witness :
  exists r, In r (recipes Symbolic.db0) /\ spec_match "CRISP" r = true
            /\ response_of Symbolic.toast 2 false
               = response_of r (Recipe.owner_id r)
                   (RecipeResponse.is_favorite (response_of Symbolic.toast 2 false)).
Proof.
  exact (proj1
    (browse_plain_query_is_containment Symbolic.db0 "CRISP" 0 20 None
       (RecipeListResponse.mk [response_of Symbolic.toast 2 false] 1)
       ltac:(discriminate) eq_refl eq_refl
       ltac:(simpl; intros r [<- | [<- | []]]; reflexivity) eq_refl)
    (response_of Symbolic.toast 2 false) (or_introl eq_refl)).
Defined.

(** ** Creating and deleting *)

Lemma find_app_l (A : Type) (p : A -> bool) (l l' : list A) (x : A) :
  find p l = Some x -> find p (l ++ l') = Some x.
Proof.
  induction l as [| a l IH]; simpl; [discriminate |].
  destruct (p a); [trivial | exact IH].
Qed.





(** X9. With an id that the Integer key column can hold and that no stored
    recipe has, [update_recipe], [delete_recipe], [add_favorite] and
    [remove_favorite] all raise 404 "Recipe not found" and leave the database
    as it was, whoever calls. *)
Theorem unknown_recipe_is_404_everywhere
    (db : Db) (recipe_id : Z) (m : RecipeBase.t) (u : User.t) :
  int32 recipe_id ->
  (forall r, In r (recipes db) -> Recipe.id r <> recipe_id) ->
  update_recipe recipe_id m db u
    = (Raise (HTTPException 404 "Recipe not found"), db)
  /\ delete_recipe recipe_id db u
     = (Raise (HTTPException 404 "Recipe not found"), db)
  /\ add_favorite (FavoriteRequest.mk recipe_id) db u
     = (Raise (HTTPException 404 "Recipe not found"), db)
  /\ remove_favorite recipe_id db u
     = (Raise (HTTPException 404 "Recipe not found"), db).
Proof.
  intros _ H. apply get_Recipe_None in H.
  unfold update_recipe, delete_recipe, add_favorite, remove_favorite. simpl.
  rewrite H. repeat split.
Qed.

Lemma unknown_recipe_is_404_everywhere_witness :
  delete_recipe 7 Symbolic.db0 Symbolic.alice
  = (Raise (HTTPException 404 "Recipe not found"), Symbolic.db0).
Proof.
  refine (proj1 (proj2
    (unknown_recipe_is_404_everywhere Symbolic.db0 7
       (RecipeBase.mk "x" None false [] []) Symbolic.alice int32_7 _))).
  simpl. intros r [<- | [<- | []]]; discriminate.
Defined.

Lemma get_Recipe_delete_other (db : Db) (r : Recipe.t) (recipe_id : Z) :
  recipe_id <> Recipe.id r ->
  get_Recipe (delete_Recipe db r) recipe_id = get_Recipe db recipe_id.
Proof.
  intros Hne. unfold get_Recipe, delete_Recipe. simpl.
  induction (recipes db) as [| a l IH]; simpl; [reflexivity |].
  destruct (Recipe.id a =? Recipe.id r) eqn:E; simpl.
  - apply Z.eqb_eq in E.
    assert (E' : (Recipe.id a =? recipe_id) = false) by (apply Z.eqb_neq; lia).
    now rewrite E'.
  - destruct (Recipe.id a =? recipe_id); [reflexivity | exact IH].
Qed.

(** What the session loads as [User.favorites]. *)
Lemma User_favorites_In (db : Db) (u : User.t) (r : Recipe.t) :
  In r (User_favorites db u) <->
  In r (recipes db) /\ In (User.id u, Recipe.id r) (favorites db).
Proof.
  unfold User_favorites. rewrite in_flat_map. split.
  - intros [[a b] [Hf H]]. simpl in H.
    destruct (a =? User.id u) eqn:Ea; [| contradiction].
    apply filter_In in H. destruct H as [Hr Hb].
    apply Z.eqb_eq in Ea, Hb. subst a b. now split.
  - intros [Hr Hf]. exists (User.id u, Recipe.id r). split; [assumption |].
    simpl. rewrite Z.eqb_refl. apply filter_In. split; [assumption |].
    apply Z.eqb_refl.
Qed.

(** X11. When the owner deletes a stored recipe the call succeeds; only
    that id is affected: every other recipe reads back as before, users are
    untouched, the favorites rows of other recipes are kept, and no user's
    favorites list shows the deleted id any more. *)
Theorem owner_delete_removes_only_that_recipe
    (db : Db) (recipe_id : Z) (r : Recipe.t) (u : User.t) :
  get_Recipe db recipe_id = Some r ->
  Recipe.owner_id r = User.id u ->
  let db' := snd (delete_recipe recipe_id db u) in
  fst (delete_recipe recipe_id db u) = Ok tt
  /\ (forall other, other <> recipe_id ->
        get_Recipe db' other = get_Recipe db other)
  /\ users db' = users db
  /\ (forall f, In f (favorites db') <->
               In f (favorites db) /\ snd f <> recipe_id)
  /\ (forall v page resp,
        list_favorites db' v = Ok page ->
        In resp (RecipeListResponse.recipes page) ->
        RecipeResponse.id resp <> recipe_id).
Proof.
  intros Hget Hown db'.
  destruct (get_Recipe_Some _ _ _ Hget) as [_ Hid].
  assert (Hdel : delete_recipe recipe_id db u = (Ok tt, delete_Recipe db r)).
  { unfold delete_recipe. rewrite Hget.
    apply Z.eqb_eq in Hown. now rewrite Hown. }
  subst db'. rewrite Hdel. simpl.
  split; [reflexivity |]. split; [| split; [reflexivity |]; split].
  - intros other Hne. apply get_Recipe_delete_other. now rewrite Hid.
  - intros f. rewrite filter_In, negb_true_iff, Z.eqb_neq, Hid. tauto.
  - intros v page resp Hpage. unfold list_favorites in Hpage. simpl in Hpage.
    discriminate Hpage.
Qed.

Lemma owner_delete_removes_only_that_recipe_witness :
  fst (delete_recipe 1 Symbolic.db0 Symbolic.alice) = Ok tt
  /\ get_Recipe (snd (delete_recipe 1 Symbolic.db0 Symbolic.alice)) 2
     = Some Symbolic.toast.
Proof.
  pose proof (owner_delete_removes_only_that_recipe Symbolic.db0 1
                Symbolic.omelet Symbolic.alice eq_refl eq_refl) as H.
  split; [exact (proj1 H) |].
  exact (proj1 (proj2 H) 2 ltac:(discriminate)).
Defined.

(** ** Who can change a recipe *)

Lemma update_recipe_cases
    (db : Db) (target : Z) (m : RecipeBase.t) (u : User.t)
    (recipe_id : Z) (r : Recipe.t) :
  get_Recipe db recipe_id = Some r ->
  get_Recipe (snd (update_recipe target m db u)) recipe_id = Some r
  \/ (target = recipe_id /\ Recipe.owner_id r = User.id u
      /\ get_Recipe (snd (update_recipe target m db u)) recipe_id
         = Some (fold_left setattr (dict_exclude_unset m) r)).
Proof.
  intros Hget. unfold update_recipe.
  destruct (get_Recipe db target) as [r0 |] eqn:H0; [| now left].
  destruct (Recipe.owner_id r0 =? User.id u) eqn:Eo; cbn [negb snd];
    [| now left].
  destruct (get_Recipe_Some _ _ _ H0) as [_ Hid0].
  assert (Hid' : Recipe.id (fold_left setattr (dict_exclude_unset m) r0) = target).
  { now rewrite setattr_fold. }
  destruct (Z.eq_dec target recipe_id) as [-> | Hne].
  - right. assert (r0 = r) by congruence. subst r0.
    split; [reflexivity |]. split; [now apply Z.eqb_eq |].
    pose proof (get_Recipe_update_same db r
                  (fold_left setattr (dict_exclude_unset m) r)) as H.
    rewrite Hid' in H. now apply H.
  - left. rewrite get_Recipe_update_other; [assumption |]. rewrite Hid'. congruence.
Qed.

Lemma delete_recipe_cases
    (db : Db) (target : Z) (u : User.t) (recipe_id : Z) (r : Recipe.t) :
  get_Recipe db recipe_id = Some r ->
  get_Recipe (snd (delete_recipe target db u)) recipe_id = Some r
  \/ (target = recipe_id /\ Recipe.owner_id r = User.id u
      /\ get_Recipe (snd (delete_recipe target db u)) recipe_id = None).
Proof.
  intros Hget. unfold delete_recipe.
  destruct (get_Recipe db target) as [r0 |] eqn:H0; [| now left].
  destruct (Recipe.owner_id r0 =? User.id u) eqn:Eo; simpl; [| now left].
  destruct (get_Recipe_Some _ _ _ H0) as [_ Hid0].
  destruct (Z.eq_dec target recipe_id) as [-> | Hne].
  - right. assert (r0 = r) by congruence. subst r0.
    split; [reflexivity |]. split; [now apply Z.eqb_eq |].
    rewrite <- Hid0. apply get_Recipe_deleted.
  - left. rewrite get_Recipe_delete_other; [assumption |]. rewrite Hid0. congruence.
Qed.

Lemma get_Recipe_after_step {C : CryptContext} (req : request) (db : Db)
    (recipe_id : Z) (r : Recipe.t) :
  get_Recipe db recipe_id = Some r ->
  get_Recipe (step req db) recipe_id = Some r
  \/ (exists u m, req = UpdateRecipe recipe_id m u
                  /\ Recipe.owner_id r = User.id u
                  /\ get_Recipe (step req db) recipe_id
                     = Some (fold_left setattr (dict_exclude_unset m) r))
  \/ (exists u, req = DeleteRecipe recipe_id u
                /\ Recipe.owner_id r = User.id u
                /\ get_Recipe (step req db) recipe_id = None).
Proof.
  intros Hget.
  destruct req as [s user | recipe u | rid m u | rid u | fav_req u | rid u]; simpl.
  - left. destruct (register_frame s user db) as [Hr _].
    unfold get_Recipe. rewrite Hr. exact Hget.
  - left. unfold get_Recipe. simpl. now apply find_app_l.
  - destruct (update_recipe_cases db rid m u recipe_id r Hget)
      as [H | [-> [Ho H]]]; [now left |].
    right. left. exists u, m. repeat split; assumption.
  - destruct (delete_recipe_cases db rid u recipe_id r Hget)
      as [H | [-> [Ho H]]]; [now left |].
    right. right. exists u. repeat split; assumption.
  - left. now rewrite add_favorite_unchanged.
  - left. now rewrite remove_favorite_unchanged.
Qed.

(** X15. No writing request changes the id or the owner of a stored recipe:
    whatever is stored under an id after the request has the owner that was
    stored under it before. *)
Theorem recipe_owner_never_changes {C : CryptContext} (req : request) (db : Db)
    (recipe_id : Z) (r r' : Recipe.t) :
  get_Recipe db recipe_id = Some r ->
  get_Recipe (step req db) recipe_id = Some r' ->
  Recipe.owner_id r' = Recipe.owner_id r /\ Recipe.id r' = Recipe.id r.
Proof.
  intros Hget Hget'.
  destruct (get_Recipe_after_step req db recipe_id r Hget)
    as [H | [[u [m [_ [_ H]]]] | [u [_ [_ H]]]]]; rewrite H in Hget'.
  - injection Hget' as <-. now split.
  - assert (E : r' = fold_left setattr (dict_exclude_unset m) r) by congruence.
    rewrite E, setattr_fold. now split.
  - discriminate.
Qed.

Lemma recipe_owner_never_changes_witness :
  Recipe.owner_id (Recipe.mk 2 "Rye" None [] [] 2) = Recipe.owner_id Symbolic.toast
  /\ Recipe.id (Recipe.mk 2 "Rye" None [] [] 2) = Recipe.id Symbolic.toast.
Proof.
  apply (recipe_owner_never_changes (C := Symbolic.crypt)
           (UpdateRecipe 2 (RecipeBase.mk "Rye" None true [] []) Symbolic.bob)
           Symbolic.db0 2 Symbolic.toast (Recipe.mk 2 "Rye" None [] [] 2));
    reflexivity.
Defined.

(** X16. If a writing request changes or removes what is stored under a
    recipe id, the request is an update or a delete of that very id made by
    the recipe's owner; no request of another kind, for another id or by
    another user does. *)
Theorem only_the_owner_changes_a_recipe {C : CryptContext} (req : request)
    (db : Db) (recipe_id : Z) (r : Recipe.t) :
  get_Recipe db recipe_id = Some r ->
  get_Recipe (step req db) recipe_id <> Some r ->
  exists u, User.id u = Recipe.owner_id r
            /\ ((exists m, req = UpdateRecipe recipe_id m u)
                \/ req = DeleteRecipe recipe_id u).
Proof.
  intros Hget Hchg.
  destruct (get_Recipe_after_step req db recipe_id r Hget)
    as [H | [[u [m [Hreq [Ho _]]]] | [u [Hreq [Ho _]]]]].
  - contradiction.
  - exists u. split; [now symmetry | left; now exists m].
  - exists u. split; [now symmetry | now right].
Qed.

Lemma only_the_owner_changes_a_recipe_witness :
  exists u, User.id u = Recipe.owner_id Symbolic.omelet
            /\ ((exists m, DeleteRecipe (C := Symbolic.crypt) 1 Symbolic.alice
                           = UpdateRecipe 1 m u)
                \/ DeleteRecipe (C := Symbolic.crypt) 1 Symbolic.alice
                   = DeleteRecipe 1 u).
Proof.
  apply (only_the_owner_changes_a_recipe (C := Symbolic.crypt)
           (DeleteRecipe 1 Symbolic.alice) Symbolic.db0 1 Symbolic.omelet).
  - reflexivity.
  - discriminate.
Defined.

(** ** Resolving the caller *)

Lemma scalar_one_or_none_Some (A : Type) (rows : list A) (a : A) :
  scalar_one_or_none rows = Ok (Some a) -> rows = [a].
Proof.
  destruct rows as [| x [| y l]]; simpl; intros H; inversion H. reflexivity.
Qed.

Lemma get_current_user_Ok {J : Jose} (JWT_SECRET : string) (db : Db)
    (tok : token) (now : Z) (u : User.t) :
  get_current_user JWT_SECRET db tok now = Ok u ->
  In u (users db)
  /\ exists payload, jwt_decode tok JWT_SECRET now = Some payload
                     /\ sub payload = Some (sub_int (User.id u)).
Proof.
  unfold get_current_user.
  destruct (jwt_decode tok JWT_SECRET now) as [payload |]; [| discriminate].
  destruct (sub payload) as [[user_id | s] |] eqn:Hsub; try discriminate.
  simpl.
  destruct (scalar_one_or_none (select_User_by_id db user_id))
    as [[u0 |] | e] eqn:Hsel; simpl; try discriminate.
  intros E. inversion E. subst u0.
  apply scalar_one_or_none_Some in Hsel.
  assert (Hin : In u (select_User_by_id db user_id)) by (rewrite Hsel; now left).
  apply filter_In in Hin. destruct Hin as [Hin Hid]. apply Z.eqb_eq in Hid.
  split; [assumption |]. exists payload. split; [reflexivity | now rewrite Hid].
Qed.

Lemma depends_get_current_user_Ok {J : Jose} (JWT_SECRET : string) (db : Db)
    (authorization : option (string * token)) (now : Z) (u : User.t) :
  depends_get_current_user JWT_SECRET db authorization now = Ok u ->
  exists scheme tok,
    authorization = Some (scheme, tok)
    /\ get_current_user JWT_SECRET db tok now = Ok u.
Proof.
  unfold depends_get_current_user, oauth2_scheme.
  destruct authorization as [[scheme tok] |]; simpl; [| discriminate].
  destruct (String.eqb (lower_string scheme) "bearer"); simpl; [| discriminate].
  intros H. now exists scheme, tok.
Qed.

(** X19. The token that a successful [login] returns stops resolving once
    seven days have passed since the login (given a token library that
    rejects a token after its expiry): [get_current_user] then raises 401
    "Could not validate credentials". *)
Theorem login_token_expires_after_seven_days {C : CryptContext} {J : Jose}
    (JWT_SECRET : string) (user : UserLogin.t) (db db' : Db) (now now' : Z)
    (t : Token.t) :
  decode_expired_law J ->
  login JWT_SECRET user db now = Ok t ->
  now + 7 * 24 * 60 * 60 < now' ->
  get_current_user JWT_SECRET db' (Token.access_token t) now'
  = Raise (HTTPException 401 "Could not validate credentials").
Proof.
  intros Hlaw Hlogin Hlate. unfold login in Hlogin.
  destruct (scalar_one_or_none (select_User_by_email db (UserLogin.email user)))
    as [[db_user |] | e]; simpl in Hlogin; try discriminate.
  destruct (negb (verify_password (UserLogin.password user)
                                  (User.hashed_password db_user)));
    [discriminate |].
  assert (Htok : Token.access_token t
                 = jwt_encode
                     (mkClaims (Some (sub_int (User.id db_user)))
                               (Some (now + ACCESS_TOKEN_EXPIRE_MINUTES * 60)))
                     JWT_SECRET) by (inversion Hlogin; reflexivity).
  rewrite Htok. unfold get_current_user.
  rewrite (Hlaw (mkClaims (Some (sub_int (User.id db_user)))
                          (Some (now + ACCESS_TOKEN_EXPIRE_MINUTES * 60)))
             JWT_SECRET now' (now + ACCESS_TOKEN_EXPIRE_MINUTES * 60) eq_refl);
    [reflexivity |].
  unfold ACCESS_TOKEN_EXPIRE_MINUTES. lia.
Qed.

Lemma Symbolic_jose_decode_expired : decode_expired_law Symbolic.jose.
Proof.
  intros c key now e He Hlt. simpl. rewrite He.
  apply Z.leb_gt in Hlt. rewrite Hlt. now rewrite andb_false_r.
Qed.

Lemma login_token_expires_after_seven_days_witness :
  get_current_user (J := Symbolic.jose) "key" Symbolic.db0
    (jwt_encode (mkClaims (Some (sub_int 1)) (Some (1000 + 60 * 24 * 7 * 60)))
       "key")
    700000
  = Raise (HTTPException 401 "Could not validate credentials").
Proof.
  apply (login_token_expires_after_seven_days (C := Symbolic.crypt)
           (J := Symbolic.jose) "key"
           (UserLogin.mk "alice@example.com" "secret1") Symbolic.db0 Symbolic.db0
           1000 700000
           (Token.mk Symbolic.jose
              (jwt_encode (mkClaims (Some (sub_int 1)) (Some (1000 + 60 * 24 * 7 * 60)))
       "key")
              "bearer")).
  - exact Symbolic_jose_decode_expired.
  - reflexivity.
  - vm_compute. reflexivity.
Defined.

(** ** Registering twice *)

(** X20. Under the unique-email constraint, once [register] has been called
    for an email, whatever its outcome, every further [register] for that
    email (with any password) raises 400 "Email already registered" and
    stores nothing. *)
Theorem register_again_is_rejected {C : CryptContext}
    (s s' : salt) (user user' : UserCreate.t) (db : Db) :
  unique_emails db = true ->
  UserCreate.email user' = UserCreate.email user ->
  register s' user' (snd (register s user db))
  = (Raise (HTTPException 400 "Email already registered"),
     snd (register s user db)).
Proof.
  intros Huniq Hemail.
  pose proof (unique_emails_step (Register s user) db Huniq) as Huniq1.
  simpl in Huniq1.
  assert (Hex : exists u, In u (users (snd (register s user db)))
                          /\ User.email u = UserCreate.email user).
  { unfold register.
    pose proof (distinct_select User.email String.eqb String.eqb_eq (users db)
                  (UserCreate.email user) Huniq) as Hle.
    fold (select_User_by_email db (UserCreate.email user)) in Hle.
    destruct (select_User_by_email db (UserCreate.email user))
      as [| x [| y l]] eqn:E; simpl in *.
    - eexists. split; [apply in_or_app; right; now left | reflexivity].
    - assert (Hx : In x (select_User_by_email db (UserCreate.email user)))
        by (rewrite E; now left).
      apply filter_In in Hx. destruct Hx as [Hx Ex].
      exists x. split; [assumption | now apply String.eqb_eq].
    - lia. }
  destruct Hex as [u [Hu Eu]].
  unfold register at 1.
  rewrite Hemail, <- Eu, (select_email_present _ u Huniq1 Hu). reflexivity.
Qed.

Lemma register_again_is_rejected_witness :
  register (C := Symbolic.crypt) "s2"%string
    (UserCreate.mk "carol@example.com" "other-password")
    (snd (register (C := Symbolic.crypt) "s1"%string
            (UserCreate.mk "carol@example.com" "hunter22") Symbolic.db0))
  = (Raise (HTTPException 400 "Email already registered"),
     snd (register (C := Symbolic.crypt) "s1"%string
            (UserCreate.mk "carol@example.com" "hunter22") Symbolic.db0)).
Proof.
  apply (register_again_is_rejected (C := Symbolic.crypt) "s1"%string "s2"%string
           (UserCreate.mk "carol@example.com" "hunter22")
           (UserCreate.mk "carol@example.com" "other-password") Symbolic.db0);
    reflexivity.
Defined.

(** ** The protected routes *)

(** X21. A request without a bearer token, or with a token that does not
    decode, is refused with a 401 by every protected route ([/auth/me],
    create, update, delete, add and remove favorite), and the database is
    left as it was. *)
Theorem protected_routes_refuse_without_identity {J : Jose}
    (JWT_SECRET : string) (db : Db) (authorization : option (string * token))
    (recipe : RecipeBase.t) (recipe_id now : Z) :
  authorization = None
  \/ (exists scheme tok, authorization = Some (scheme, tok)
                         /\ jwt_decode tok JWT_SECRET now = None) ->
  exists detail,
    let e := HTTPException 401 detail in
    route_get_me JWT_SECRET db authorization now = Raise e
    /\ route_create_recipe JWT_SECRET recipe db authorization now = (Raise e, db)
    /\ route_update_recipe JWT_SECRET recipe_id recipe db authorization now
       = (Raise e, db)
    /\ route_delete_recipe JWT_SECRET recipe_id db authorization now = (Raise e, db)
    /\ route_add_favorite JWT_SECRET (FavoriteRequest.mk recipe_id) db
         authorization now = (Raise e, db)
    /\ route_remove_favorite JWT_SECRET recipe_id db authorization now
       = (Raise e, db).
Proof.
  intros H.
  assert (Hdep : exists detail,
            depends_get_current_user JWT_SECRET db authorization now
            = Raise (HTTPException 401 detail)).
  { destruct H as [-> | [scheme [tok [-> Hd]]]].
    - eexists. reflexivity.
    - unfold depends_get_current_user, oauth2_scheme.
      destruct (String.eqb (lower_string scheme) "bearer"); simpl.
      + unfold get_current_user. rewrite Hd. eexists. reflexivity.
      + eexists. reflexivity. }
  destruct Hdep as [detail Hdep]. exists detail. simpl.
  unfold route_get_me, route_create_recipe, route_update_recipe,
    route_delete_recipe, route_add_favorite, route_remove_favorite.
  rewrite Hdep. simpl. repeat split.
Qed.

Lemma protected_routes_refuse_without_identity_witness :
  exists detail,
    route_get_me (J := Symbolic.jose) "key" Symbolic.db0 None 1000
    = Raise (HTTPException 401 detail)
    /\ route_create_recipe (J := Symbolic.jose) "key"
         (RecipeBase.mk "Soup" None false [] []) Symbolic.db0 None 1000
       = (Raise (HTTPException 401 detail), Symbolic.db0).
Proof.
  destruct (protected_routes_refuse_without_identity (J := Symbolic.jose) "key"
              Symbolic.db0 None (RecipeBase.mk "Soup" None false [] []) 1 1000
              (or_introl eq_refl)) as [detail [H1 [H2 _]]].
  exists detail. split; assumption.
Defined.

(** X22. Through the routes, what is stored under a recipe id changes only
    when the request carries a bearer token that decodes to a payload whose
    [sub] is the id of the recipe's owner: [PUT] and [DELETE
    /recipes/{id}] with any other token, or none, leave the recipe as it
    was. *)
Theorem recipe_changes_need_the_owners_token {J : Jose}
    (JWT_SECRET : string) (db : Db) (recipe_id target : Z) (r : Recipe.t)
    (m : RecipeBase.t) (authorization : option (string * token)) (now : Z) :
  get_Recipe db recipe_id = Some r ->
  get_Recipe (snd (route_update_recipe JWT_SECRET target m db authorization now))
             recipe_id <> Some r
  \/ get_Recipe (snd (route_delete_recipe JWT_SECRET target db authorization now))
                recipe_id <> Some r ->
  exists scheme tok payload,
    authorization = Some (scheme, tok)
    /\ jwt_decode tok JWT_SECRET now = Some payload
    /\ sub payload = Some (sub_int (Recipe.owner_id r)).
Proof.
  intros Hget Hchg.
  unfold route_update_recipe, route_delete_recipe in Hchg.
  destruct (depends_get_current_user JWT_SECRET db authorization now)
    as [u | e] eqn:Hdep.
  - destruct (depends_get_current_user_Ok _ _ _ _ _ Hdep) as [scheme [tok [-> Hu]]].
    destruct (get_current_user_Ok _ _ _ _ _ Hu) as [_ [payload [Hd Hs]]].
    assert (Hown : Recipe.owner_id r = User.id u).
    { destruct Hchg as [Hchg | Hchg].
      - destruct (update_recipe_cases db target m u recipe_id r Hget)
          as [H | [_ [Ho _]]]; [contradiction | assumption].
      - destruct (delete_recipe_cases db target u recipe_id r Hget)
          as [H | [_ [Ho _]]]; [contradiction | assumption]. }
    exists scheme, tok, payload. rewrite Hown. repeat split; assumption.
  - simpl in Hchg. destruct Hchg as [Hchg | Hchg]; contradiction.
Qed.

Lemma recipe_changes_need_the_owners_token_witness :
  exists scheme tok payload,
    Some ("Bearer"%string, (mkClaims (Some (sub_int 1)) (Some 5000), "key"%string))
    = Some (scheme, tok)
    /\ jwt_decode (Jose := Symbolic.jose) tok "key" 1000 = Some payload
    /\ sub payload = Some (sub_int (Recipe.owner_id Symbolic.omelet)).
Proof.
  apply (recipe_changes_need_the_owners_token (J := Symbolic.jose) "key"
           Symbolic.db0 1 1 Symbolic.omelet
           (RecipeBase.mk "x" None false [] [])
           (Some ("Bearer"%string, (mkClaims (Some (sub_int 1)) (Some 5000), "key"%string)))
           1000).
  - reflexivity.
  - right. vm_compute. discriminate.
Defined.

(** ** Favorites are never stored *)

Lemma favorites_after_step {C : CryptContext} (req : request) (db : Db)
    (f : favorite_row) :
  In f (favorites (step req db)) -> In f (favorites db).
Proof.
  destruct req as [s user | recipe u | rid m u | rid u | fav_req u | rid u]; simpl.
  - destruct (register_frame s user db) as [_ Hf]. now rewrite Hf.
  - trivial.
  - unfold update_recipe. destruct (get_Recipe db rid) as [r |]; [| trivial].
    now destruct (negb (Recipe.owner_id r =? User.id u)).
  - unfold delete_recipe. destruct (get_Recipe db rid) as [r |]; [| trivial].
    destruct (negb (Recipe.owner_id r =? User.id u)); [trivial |].
    simpl. intros H. now apply filter_In in H.
  - now rewrite add_favorite_unchanged.
  - now rewrite remove_favorite_unchanged.
Qed.

(** X23. No request adds a row to the favorites table: whatever row is
    there after a sequence of register, create, update, delete, add-favorite
    and remove-favorite requests was there before it; starting from the
    empty database the table stays empty. *)
Theorem no_request_stores_a_favorite {C : CryptContext} (reqs : list request) :
  (forall db f,
     In f (favorites (fold_left (fun db req => step req db) reqs db)) ->
     In f (favorites db))
  /\ favorites (fold_left (fun db req => step req db) reqs empty_db) = [].
Proof.
  assert (H : forall db f,
            In f (favorites (fold_left (fun db req => step req db) reqs db)) ->
            In f (favorites db)).
  { induction reqs as [| req reqs IH]; intros db f Hf; simpl in Hf;
      [assumption |].
    apply (favorites_after_step req). now apply IH. }
  split; [exact H |].
  destruct (favorites (fold_left (fun db req => step req db) reqs empty_db))
    as [| f l] eqn:E; [reflexivity |].
  exfalso. apply (H empty_db f). rewrite E. now left.
Qed.
